(** * Attribute-driven dispatch of the DSSTNE dataset core (NNTypes.h)

    A shallow embedding of [NNDataSetDescriptor::isSupported] and of the
    error, output-delta and sparse-transposition dispatchers of
    [NNDataSet<T>], followed by the properties established about them.

    Host code is modelled as a state transformer over the dataset that also
    writes a log of what it asked of its collaborators: kernel launches,
    buffer copies, console output, device shutdown and process exit. *)

From Stdlib Require Import ZArith List Bool String.
Import ListNotations.
Open Scope Z_scope.

(** ** Enumerations *)

(** [enum Activation] of NNTypes.h. *)
Inductive Activation : Type :=
| Sigmoid
| Tanh
| RectifiedLinear
| Linear
| ParametricRectifiedLinear
| SoftPlus
| SoftSign
| SoftMax
| RELUMax
| LinearMax
| ExponentialLinear
| LeakyRectifiedLinear
| ScaledExponentialLinear.

(** The masks of [NNDataSetEnums::Attributes].  NNEnum.h, which gives them
    their values, is not among the sources: the development is carried out
    for arbitrary masks. *)
Class Attributes : Type := {
  Sparse : Z;
  Boolean : Z;
  SparseIgnoreZero : Z;
  Indexed : Z;
  Weighted : Z
}.

(** The types the header leaves to other files: [NNFloat], the element type
    [T] of [NNDataSet<T>], [NNDataSetEnums::DataType], and the addresses
    ([NNFloat*], [NNLayer*]) callers pass in. *)
Class Types : Type := {
  NNFloat : Type;
  T : Type;
  DataType : Type;
  Ptr : Type
}.

(** [uint32_t] arithmetic wraps. *)
Definition uint32 (z : Z) : Z := z mod 2 ^ 32.

(** [a & mask] used as a condition, or converted to [bool]. *)
Definition test (a mask : Z) : bool := negb (Z.land a mask =? 0).

(** ** Dataset descriptor *)

Record NNDataSetDimensions : Type := {
  _dimensions : Z;
  _width : Z;
  _height : Z;
  _length : Z
}.

Module NNDataSetDescriptor.
Section Descriptor.
Context `{Attributes} `{Types}.

Record t : Type := {
  _name : string;
  _dataType : DataType;
  _attributes : Z;
  _dim : NNDataSetDimensions;
  _examples : Z;
  _sparseDensity : NNFloat
}.

(** [vector<Attributes>(Attributes::Sparse)]: the constructor taking a
    count, so [Sparse] many value-initialised (zero) masks.  The enumerator
    is a bit mask, hence not negative. *)
Definition SUPPORTED_ATTRIBUTES : list Z := repeat 0 (Z.to_nat Sparse).

(** One iteration of the loop body of [isSupported]. *)
Definition strip (attributes mask : Z) : Z :=
  if test attributes mask then uint32 (attributes - mask) else attributes.

Definition isSupported (attributes : Z) : bool :=
  let attributes := fold_left strip SUPPORTED_ATTRIBUTES attributes in
  attributes =? 0.

(** Modelled from the spec: createNNDataSet is declared in NNTypes.h but
    its body is not among the sources.  Its documentation there and
    section 4.5 of the specification say that it validates the attributes
    with [isSupported] and fails, returning no object, when they are not
    supported.  The object handed back is represented by the descriptor it
    was built from. *)
Definition createNNDataSet (descriptor : t) : option t :=
  if isSupported (_attributes descriptor) then Some descriptor else None.

(** The reading of the supported set that makes [Sparse], [Indexed] and
    [Weighted] freely combinable: no bit outside those three masks. *)
Definition within_Sparse_Indexed_Weighted (attributes : Z) : bool :=
  Z.land attributes (Z.lnot (Z.lor Sparse (Z.lor Indexed Weighted))) =? 0.

(** No bit outside the [Sparse] mask. *)
Definition within_Sparse (attributes : Z) : bool :=
  Z.land attributes (Z.lnot Sparse) =? 0.

End Descriptor.
End NNDataSetDescriptor.

(** ** Compute kernels

    The entry points of kernels.h that the dispatchers below select among.
    Only their names matter here: what they compute belongs to the kernel
    library. *)
Inductive Kernel : Type :=
(* sparse transposition *)
| kCalculateIndexedSparseTransposedMatrix
| kCalculateSparseTransposedMatrix
| kCalculateIndexedSparseTransposedAnalogMatrix
| kCalculateSparseTransposedAnalogMatrix
| kCalculateIndexedSparseTransposedDenoisedMatrix
| kCalculateSparseTransposedDenoisedMatrix
| kCalculateIndexedSparseTransposedAnalogDenoisedMatrix
| kCalculateSparseTransposedAnalogDenoisedMatrix
(* L1 error *)
| kCalculateIndexedSparseL1Error
| kCalculateSparseL1Error
| kCalculateIndexedSparseAnalogL1Error
| kCalculateSparseAnalogL1Error
| kCalculateIndexedL1Error
| kCalculateL1Error
(* L2 error *)
| kCalculateIndexedSparseL2Error
| kCalculateSparseL2Error
| kCalculateIndexedSparseAnalogL2Error
| kCalculateSparseAnalogL2Error
| kCalculateIndexedL2Error
| kCalculateL2Error
(* L2 hinge error *)
| kCalculateIndexedSparseL2HingeError
| kCalculateSparseL2HingeError
| kCalculateIndexedSparseAnalogL2HingeError
| kCalculateSparseAnalogL2HingeError
| kCalculateIndexedL2HingeError
| kCalculateL2HingeError
(* cross entropy error *)
| kCalculateIndexedSparseCrossEntropyError
| kCalculateSparseCrossEntropyError
| kCalculateIndexedCrossEntropyError
| kCalculateCrossEntropyError
(* scaled marginal cross entropy error *)
| kCalculateIndexedSparseScaledMarginalCrossEntropyError
| kCalculateSparseScaledMarginalCrossEntropyError
| kCalculateIndexedScaledMarginalCrossEntropyError
| kCalculateScaledMarginalCrossEntropyError
(* multinomial cross entropy error *)
| kCalculateIndexedSparseMultinomialCrossEntropyError
| kCalculateSparseMultinomialCrossEntropyError
| kCalculateIndexedSparseAnalogMultinomialCrossEntropyError
| kCalculateSparseAnalogMultinomialCrossEntropyError
| kCalculateIndexedMultinomialCrossEntropyError
| kCalculateMultinomialCrossEntropyError
(* multinomial scaled marginal cross entropy error *)
| kCalculateIndexedSparseMultinomialScaledMarginalCrossEntropyError
| kCalculateSparseMultinomialScaledMarginalCrossEntropyError
| kCalculateIndexedSparseAnalogMultinomialScaledMarginalCrossEntropyError
| kCalculateSparseAnalogMultinomialScaledMarginalCrossEntropyError
| kCalculateIndexedMultinomialScaledMarginalCrossEntropyError
| kCalculateMultinomialScaledMarginalCrossEntropyError
(* data scaled marginal cross entropy error *)
| kCalculateIndexedSparseDataScaledMarginalCrossEntropyError
| kCalculateSparseDataScaledMarginalCrossEntropyError
(* hinge error *)
| kCalculateIndexedHingeError
| kCalculateHingeError
(* L1 output delta *)
| kCalculateIndexedSparseL1OutputDelta
| kCalculateSparseL1OutputDelta
| kCalculateIndexedL1OutputDelta
| kCalculateL1OutputDelta
(* cross entropy output delta *)
| kCalculateIndexedSparseCrossEntropyOutputDelta
| kCalculateSparseCrossEntropyOutputDelta
| kCalculateIndexedCrossEntropyOutputDelta
| kCalculateCrossEntropyOutputDelta
(* scaled marginal cross entropy output delta *)
| kCalculateIndexedSparseScaledMarginalCrossEntropyOutputDelta
| kCalculateSparseScaledMarginalCrossEntropyOutputDelta
| kCalculateIndexedScaledMarginalCrossEntropyOutputDelta
| kCalculateScaledMarginalCrossEntropyOutputDelta
(* output delta *)
| kCalculateIndexedSparseOutputDelta
| kCalculateSparseOutputDelta
| kCalculateIndexedSparseAnalogOutputDelta
| kCalculateSparseAnalogOutputDelta
| kCalculateIndexedOutputDelta
| kCalculateOutputDelta
(* L2 hinge output delta *)
| kCalculateIndexedSparseL2HingeOutputDelta
| kCalculateSparseL2HingeOutputDelta
| kCalculateIndexedSparseAnalogL2HingeOutputDelta
| kCalculateSparseAnalogL2HingeOutputDelta
| kCalculateIndexedL2HingeOutputDelta
| kCalculateL2HingeOutputDelta
(* data scaled marginal cross entropy output delta *)
| kCalculateIndexedSparseDataScaledMarginalCrossEntropyOutputDelta
| kCalculateSparseDataScaledMarginalCrossEntropyOutputDelta
(* hinge output delta *)
| kCalculateIndexedHingeOutputDelta
| kCalculateHingeOutputDelta.

(** ** The dataset and what it hands to a kernel *)

(** The [GpuBuffer] members of [NNDataSetBase] and [NNDataSet<T>] that the
    dispatchers dereference. *)
Inductive GpuBuffer : Type :=
| pbData
| pbSparseData
| pbSparseStart
| pbSparseEnd
| pbSparseIndex
| pbDataWeight
| pbIndex
| pbDenoisingRandom
| pbSparseTransposedStart
| pbSparseTransposedEnd
| pbSparseTransposedIndex
| pbSparseTransposedData.

Section DataSet.
Context `{Types}.

(** The state of [NNDataSet<T>] that the dispatchers read or write: the
    attribute word, the two fields guarding the transposed structures, and
    the device-side contents of each buffer. *)
Record NNDataSet : Type := {
  _attributes : Z;
  _bDirty : bool;
  _batch : Z;
  _pbData : list T;
  _pbSparseData : list T;
  _pbSparseStart : list Z;
  _pbSparseEnd : list Z;
  _pbSparseIndex : list Z;
  _pbDataWeight : list NNFloat;
  _pbIndex : list Z;
  _pbDenoisingRandom : list NNFloat;
  _pbSparseTransposedStart : list Z;
  _pbSparseTransposedEnd : list Z;
  _pbSparseTransposedIndex : list Z;
  _pbSparseTransposedData : list NNFloat
}.

(** Device memory behind a buffer. *)
Inductive DevData : Type :=
| dev_uint (l : list Z)
| dev_NNFloat (l : list NNFloat)
| dev_T (l : list T).

Definition _pDevData (this : NNDataSet) (b : GpuBuffer) : DevData :=
  match b with
  | pbData => dev_T (_pbData this)
  | pbSparseData => dev_T (_pbSparseData this)
  | pbSparseStart => dev_uint (_pbSparseStart this)
  | pbSparseEnd => dev_uint (_pbSparseEnd this)
  | pbSparseIndex => dev_uint (_pbSparseIndex this)
  | pbDataWeight => dev_NNFloat (_pbDataWeight this)
  | pbIndex => dev_uint (_pbIndex this)
  | pbDenoisingRandom => dev_NNFloat (_pbDenoisingRandom this)
  | pbSparseTransposedStart => dev_uint (_pbSparseTransposedStart this)
  | pbSparseTransposedEnd => dev_uint (_pbSparseTransposedEnd this)
  | pbSparseTransposedIndex => dev_uint (_pbSparseTransposedIndex this)
  | pbSparseTransposedData => dev_NNFloat (_pbSparseTransposedData this)
  end.

(** An actual argument of a kernel launch.  A device pointer is recorded
    with the buffer it belongs to and the memory it points to at the
    launch, which is all a kernel can reach through it. *)
Inductive Arg : Type :=
| u32 (v : Z)
| ptr (p : Ptr)
| act (a : Activation)
| flt (x : NNFloat)
| flag (b : bool)
| NULL
| dev (b : GpuBuffer) (d : DevData).

(** What host code asks of its collaborators, in program order. *)
Inductive Event : Type :=
| launch (k : Kernel) (args : list Arg)
| generate (batch : Z) (pLayer : Ptr)
| copy (dst : GpuBuffer) (src : Arg)
| cout (s : string)
| Shutdown
| exit (status : Z).

(** The outcome of running a member function: what it logged, the dataset
    it leaves, and the value it returned, [None] when the process was
    terminated instead. *)
Record Run (A : Type) : Type := {
  log : list Event;
  final : NNDataSet;
  value : option A
}.

Arguments log {A} _.
Arguments final {A} _.
Arguments value {A} _.

Definition M (A : Type) : Type := NNDataSet -> Run A.

Definition ret {A : Type} (a : A) : M A :=
  fun this => {| log := []; final := this; value := Some a |}.

Definition bind {A B : Type} (m : M A) (f : A -> M B) : M B :=
  fun this =>
    match m this with
    | {| log := l; final := after; value := Some a |} =>
        match f a after with
        | {| log := l'; final := after'; value := v |} =>
            {| log := l ++ l'; final := after'; value := v |}
        end
    | {| log := l; final := after; value := None |} =>
        {| log := l; final := after; value := None |}
    end.

Definition emit (e : Event) : M unit :=
  fun this => {| log := [e]; final := this; value := Some tt |}.

(** [exit(status)] does not return. *)
Definition exit_ {A : Type} (status : Z) : M A :=
  fun this => {| log := [exit status]; final := this; value := None |}.

(** The kernel launches of a log, in order. *)
Fixpoint launches (l : list Event) : list (Kernel * list Arg) :=
  match l with
  | [] => []
  | launch k args :: l => (k, args) :: launches l
  | _ :: l => launches l
  end.

(** The weight-buffer arguments of a launch: the dataset's weight buffer
    or the null pointer passed in its place. *)
Definition is_weight_arg (a : Arg) : bool :=
  match a with
  | NULL => true
  | dev pbDataWeight _ => true
  | _ => false
  end.

Definition is_flag (a : Arg) : bool :=
  match a with
  | flag _ => true
  | _ => false
  end.

End DataSet.

Arguments log {_ A} _.
Arguments final {_ A} _.
Arguments value {_ A} _.

(** ** Collaborators

    What lies outside NNTypes.h and is therefore left open: the value a
    kernel returns and what it writes to the dataset's device buffers, both
    as functions of the kernel and its actual arguments, and the member
    [GenerateSparseTransposedMatrix], which NNTypes.h only declares. *)
Class Collaborators `{Types} : Type := {
  kernel_value : Kernel -> list Arg -> NNFloat;
  kernel_writes : Kernel -> list Arg -> NNDataSet -> NNDataSet;
  GenerateSparseTransposedMatrix_does : Z -> Ptr -> NNDataSet -> NNDataSet * bool
}.

Section Dispatch.
Context `{Attributes} `{Collaborators}.

Notation "x <- m ;; k" := (bind m (fun x => k))
  (at level 61, m at next level, right associativity).
Notation "m ;; k" := (bind m (fun _ => k))
  (at level 61, right associativity).
Notation "this &? mask" := (test (_attributes this) mask) (at level 40).
Notation "this ~> b" := (dev b (_pDevData this b)) (at level 30).

(** A kernel launch. *)
Definition kernel (k : Kernel) (args : list Arg) : M NNFloat :=
  fun this =>
    {| log := [launch k args];
       final := kernel_writes k args this;
       value := Some (kernel_value k args) |}.

Definition GenerateSparseTransposedMatrix (batch : Z) (pLayer : Ptr) : M bool :=
  fun this =>
    {| log := [generate batch pLayer];
       final := fst (GenerateSparseTransposedMatrix_does batch pLayer this);
       value := Some (snd (GenerateSparseTransposedMatrix_does batch pLayer this)) |}.

Definition set_pbSparseTransposedEnd (l : list Z) (this : NNDataSet) : NNDataSet :=
  {| _attributes := _attributes this;
     _bDirty := _bDirty this;
     _batch := _batch this;
     _pbData := _pbData this;
     _pbSparseData := _pbSparseData this;
     _pbSparseStart := _pbSparseStart this;
     _pbSparseEnd := _pbSparseEnd this;
     _pbSparseIndex := _pbSparseIndex this;
     _pbDataWeight := _pbDataWeight this;
     _pbIndex := _pbIndex this;
     _pbDenoisingRandom := _pbDenoisingRandom this;
     _pbSparseTransposedStart := _pbSparseTransposedStart this;
     _pbSparseTransposedEnd := l;
     _pbSparseTransposedIndex := _pbSparseTransposedIndex this;
     _pbSparseTransposedData := _pbSparseTransposedData this |}.

(** Modelled from the spec: [GpuBuffer<T>::Copy] belongs to GpuTypes.h, which
    is not among the sources.  Step 2 of section 4.4 of the specification
    describes the call [_pbSparseTransposedEnd->Copy(...)] as resetting the
    working end offsets to a copy of the start offsets. *)
Definition Copy_pbSparseTransposedEnd (src : list Z) : M unit :=
  fun this =>
    {| log := [copy pbSparseTransposedEnd (dev pbSparseTransposedStart (dev_uint src))];
       final := set_pbSparseTransposedEnd src this;
       value := Some tt |}.

Definition set_pbDataWeight (l : list NNFloat) (this : NNDataSet) : NNDataSet :=
  {| _attributes := _attributes this;
     _bDirty := _bDirty this;
     _batch := _batch this;
     _pbData := _pbData this;
     _pbSparseData := _pbSparseData this;
     _pbSparseStart := _pbSparseStart this;
     _pbSparseEnd := _pbSparseEnd this;
     _pbSparseIndex := _pbSparseIndex this;
     _pbDataWeight := l;
     _pbIndex := _pbIndex this;
     _pbDenoisingRandom := _pbDenoisingRandom this;
     _pbSparseTransposedStart := _pbSparseTransposedStart this;
     _pbSparseTransposedEnd := _pbSparseTransposedEnd this;
     _pbSparseTransposedIndex := _pbSparseTransposedIndex this;
     _pbSparseTransposedData := _pbSparseTransposedData this |}.

(** *** Sparse transposition *)

Definition CalculateSparseTransposedMatrix (position batch : Z) (pLayer : Ptr) : M bool :=
  (fun this =>
     if _bDirty this || negb (batch =? _batch this)
     then (GenerateSparseTransposedMatrix batch pLayer ;; ret tt) this
     else ret tt this) ;;
  (fun this => Copy_pbSparseTransposedEnd (_pbSparseTransposedStart this) this) ;;
  (fun this =>
     let pDataWeight := if this &? Weighted then this ~> pbDataWeight else NULL in
     let pSparseTransposedData :=
       if (this &? Weighted) || negb (this &? Boolean)
       then this ~> pbSparseTransposedData else NULL in
     if this &? Boolean then
       if this &? Indexed then
         kernel kCalculateIndexedSparseTransposedMatrix
           [u32 position; u32 batch; this ~> pbIndex; this ~> pbSparseStart;
            this ~> pbSparseEnd; this ~> pbSparseIndex; pDataWeight;
            this ~> pbSparseTransposedEnd; this ~> pbSparseTransposedIndex;
            pSparseTransposedData] this
       else
         kernel kCalculateSparseTransposedMatrix
           [u32 position; u32 batch; this ~> pbSparseStart;
            this ~> pbSparseEnd; this ~> pbSparseIndex; pDataWeight;
            this ~> pbSparseTransposedEnd; this ~> pbSparseTransposedIndex;
            pSparseTransposedData] this
     else
       if this &? Indexed then
         kernel kCalculateIndexedSparseTransposedAnalogMatrix
           [u32 position; u32 batch; this ~> pbIndex; this ~> pbSparseStart;
            this ~> pbSparseEnd; this ~> pbSparseIndex; pDataWeight;
            this ~> pbSparseData;
            this ~> pbSparseTransposedEnd; this ~> pbSparseTransposedIndex;
            pSparseTransposedData] this
       else
         kernel kCalculateSparseTransposedAnalogMatrix
           [u32 position; u32 batch; this ~> pbSparseStart;
            this ~> pbSparseEnd; this ~> pbSparseIndex; pDataWeight;
            this ~> pbSparseData;
            this ~> pbSparseTransposedEnd; this ~> pbSparseTransposedIndex;
            pSparseTransposedData] this) ;;
  ret true.

Definition CalculateSparseTransposedDenoisedMatrix (position batch : Z) (pLayer : Ptr) : M bool :=
  (fun this =>
     if _bDirty this || negb (batch =? _batch this)
     then (GenerateSparseTransposedMatrix batch pLayer ;; ret tt) this
     else ret tt this) ;;
  (fun this => Copy_pbSparseTransposedEnd (_pbSparseTransposedStart this) this) ;;
  (fun this =>
     let pDataWeight := if this &? Weighted then this ~> pbDataWeight else NULL in
     let pSparseTransposedData :=
       if (this &? Weighted) || negb (this &? Boolean)
       then this ~> pbSparseTransposedData else NULL in
     if this &? Boolean then
       if this &? Indexed then
         kernel kCalculateIndexedSparseTransposedDenoisedMatrix
           [u32 position; u32 batch; this ~> pbIndex; this ~> pbSparseStart;
            this ~> pbSparseEnd; this ~> pbSparseIndex; pDataWeight;
            this ~> pbDenoisingRandom;
            this ~> pbSparseTransposedEnd; this ~> pbSparseTransposedIndex;
            pSparseTransposedData] this
       else
         kernel kCalculateSparseTransposedDenoisedMatrix
           [u32 position; u32 batch; this ~> pbSparseStart;
            this ~> pbSparseEnd; this ~> pbSparseIndex; pDataWeight;
            this ~> pbDenoisingRandom;
            this ~> pbSparseTransposedEnd; this ~> pbSparseTransposedIndex;
            pSparseTransposedData] this
     else
       if this &? Indexed then
         kernel kCalculateIndexedSparseTransposedAnalogDenoisedMatrix
           [u32 position; u32 batch; this ~> pbIndex; this ~> pbSparseStart;
            this ~> pbSparseEnd; this ~> pbSparseIndex; pDataWeight;
            this ~> pbSparseData; this ~> pbDenoisingRandom;
            this ~> pbSparseTransposedEnd; this ~> pbSparseTransposedIndex;
            pSparseTransposedData] this
       else
         kernel kCalculateSparseTransposedAnalogDenoisedMatrix
           [u32 position; u32 batch; this ~> pbSparseStart;
            this ~> pbSparseEnd; this ~> pbSparseIndex; pDataWeight;
            this ~> pbSparseData; this ~> pbDenoisingRandom;
            this ~> pbSparseTransposedEnd; this ~> pbSparseTransposedIndex;
            pSparseTransposedData] this) ;;
  ret true.
(** *** Error functions *)

Definition CalculateL1Error (position batch stride : Z) (pUnit : Ptr) : M NNFloat :=
  fun this =>
  let pDataWeight := if this &? Weighted then this ~> pbDataWeight else NULL in
  if this &? Sparse then
    let bSparseIgnoreZero := this &? SparseIgnoreZero in
    if this &? Boolean then
      if this &? Indexed then
        kernel kCalculateIndexedSparseL1Error
          [u32 position; u32 batch; u32 stride; ptr pUnit; this ~> pbIndex;
           this ~> pbSparseStart; this ~> pbSparseEnd; this ~> pbSparseIndex;
           pDataWeight; flag bSparseIgnoreZero] this
      else
        kernel kCalculateSparseL1Error
          [u32 position; u32 batch; u32 stride; ptr pUnit;
           this ~> pbSparseStart; this ~> pbSparseEnd; this ~> pbSparseIndex;
           pDataWeight; flag bSparseIgnoreZero] this
    else
      if this &? Indexed then
        kernel kCalculateIndexedSparseAnalogL1Error
          [u32 position; u32 batch; u32 stride; ptr pUnit; this ~> pbIndex;
           this ~> pbSparseStart; this ~> pbSparseEnd; this ~> pbSparseIndex;
           pDataWeight; this ~> pbSparseData; flag bSparseIgnoreZero] this
      else
        kernel kCalculateSparseAnalogL1Error
          [u32 position; u32 batch; u32 stride; ptr pUnit;
           this ~> pbSparseStart; this ~> pbSparseEnd; this ~> pbSparseIndex;
           pDataWeight; this ~> pbSparseData; flag bSparseIgnoreZero] this
  else
    if this &? Indexed then
      kernel kCalculateIndexedL1Error
        [u32 position; u32 batch; u32 stride; ptr pUnit; this ~> pbIndex;
         this ~> pbData; pDataWeight] this
    else
      kernel kCalculateL1Error
        [u32 position; u32 batch; u32 stride; ptr pUnit; this ~> pbData;
         pDataWeight] this.

Definition CalculateL2Error (position batch stride : Z) (pUnit : Ptr) : M NNFloat :=
  fun this =>
  let pDataWeight := if this &? Weighted then this ~> pbDataWeight else NULL in
  if this &? Sparse then
    let bSparseIgnoreZero := this &? SparseIgnoreZero in
    if this &? Boolean then
      if this &? Indexed then
        kernel kCalculateIndexedSparseL2Error
          [u32 position; u32 batch; u32 stride; ptr pUnit; this ~> pbIndex;
           this ~> pbSparseStart; this ~> pbSparseEnd; this ~> pbSparseIndex;
           pDataWeight; flag bSparseIgnoreZero] this
      else
        kernel kCalculateSparseL2Error
          [u32 position; u32 batch; u32 stride; ptr pUnit;
           this ~> pbSparseStart; this ~> pbSparseEnd; this ~> pbSparseIndex;
           pDataWeight; flag bSparseIgnoreZero] this
    else
      if this &? Indexed then
        kernel kCalculateIndexedSparseAnalogL2Error
          [u32 position; u32 batch; u32 stride; ptr pUnit; this ~> pbIndex;
           this ~> pbSparseStart; this ~> pbSparseEnd; this ~> pbSparseIndex;
           pDataWeight; this ~> pbSparseData; flag bSparseIgnoreZero] this
      else
        kernel kCalculateSparseAnalogL2Error
          [u32 position; u32 batch; u32 stride; ptr pUnit;
           this ~> pbSparseStart; this ~> pbSparseEnd; this ~> pbSparseIndex;
           pDataWeight; this ~> pbSparseData; flag bSparseIgnoreZero] this
  else
    if this &? Indexed then
      kernel kCalculateIndexedL2Error
        [u32 position; u32 batch; u32 stride; ptr pUnit; this ~> pbIndex;
         this ~> pbData; pDataWeight] this
    else
      kernel kCalculateL2Error
        [u32 position; u32 batch; u32 stride; ptr pUnit; this ~> pbData;
         pDataWeight] this.

Definition CalculateL2HingeError (position batch stride : Z) (pUnit : Ptr) : M NNFloat :=
  fun this =>
  let pDataWeight := if this &? Weighted then this ~> pbDataWeight else NULL in
  if this &? Sparse then
    let bSparseIgnoreZero := this &? SparseIgnoreZero in
    if this &? Boolean then
      if this &? Indexed then
        kernel kCalculateIndexedSparseL2HingeError
          [u32 position; u32 batch; u32 stride; ptr pUnit; this ~> pbIndex;
           this ~> pbSparseStart; this ~> pbSparseEnd; this ~> pbSparseIndex;
           pDataWeight; flag bSparseIgnoreZero] this
      else
        kernel kCalculateSparseL2HingeError
          [u32 position; u32 batch; u32 stride; ptr pUnit;
           this ~> pbSparseStart; this ~> pbSparseEnd; this ~> pbSparseIndex;
           pDataWeight; flag bSparseIgnoreZero] this
    else
      if this &? Indexed then
        kernel kCalculateIndexedSparseAnalogL2HingeError
          [u32 position; u32 batch; u32 stride; ptr pUnit; this ~> pbIndex;
           this ~> pbSparseStart; this ~> pbSparseEnd; this ~> pbSparseIndex;
           pDataWeight; this ~> pbSparseData; flag bSparseIgnoreZero] this
      else
        kernel kCalculateSparseAnalogL2HingeError
          [u32 position; u32 batch; u32 stride; ptr pUnit;
           this ~> pbSparseStart; this ~> pbSparseEnd; this ~> pbSparseIndex;
           pDataWeight; this ~> pbSparseData; flag bSparseIgnoreZero] this
  else
    if this &? Indexed then
      kernel kCalculateIndexedL2HingeError
        [u32 position; u32 batch; u32 stride; ptr pUnit; this ~> pbIndex;
         this ~> pbData; pDataWeight] this
    else
      kernel kCalculateL2HingeError
        [u32 position; u32 batch; u32 stride; ptr pUnit; this ~> pbData;
         pDataWeight] this.

Definition CalculateCrossEntropyError (position batch stride : Z) (pUnit : Ptr) : M NNFloat :=
  fun this =>
  let pDataWeight := if this &? Weighted then this ~> pbDataWeight else NULL in
  if this &? Sparse then
    let bSparseIgnoreZero := this &? SparseIgnoreZero in
    if this &? Indexed then
      kernel kCalculateIndexedSparseCrossEntropyError
        [u32 position; u32 batch; u32 stride; ptr pUnit; this ~> pbIndex;
         this ~> pbSparseStart; this ~> pbSparseEnd; this ~> pbSparseIndex;
         pDataWeight; flag bSparseIgnoreZero] this
    else
      kernel kCalculateSparseCrossEntropyError
        [u32 position; u32 batch; u32 stride; ptr pUnit; this ~> pbSparseStart;
         this ~> pbSparseEnd; this ~> pbSparseIndex; pDataWeight;
         flag bSparseIgnoreZero] this
  else
    if this &? Indexed then
      kernel kCalculateIndexedCrossEntropyError
        [u32 position; u32 batch; u32 stride; ptr pUnit; this ~> pbIndex;
         this ~> pbData; pDataWeight] this
    else
      kernel kCalculateCrossEntropyError
        [u32 position; u32 batch; u32 stride; ptr pUnit; this ~> pbData;
         pDataWeight] this.

Definition CalculateScaledMarginalCrossEntropyError (position batch stride : Z) (pUnit : Ptr) : M NNFloat :=
  fun this =>
  let pDataWeight := if this &? Weighted then this ~> pbDataWeight else NULL in
  if this &? Sparse then
    let bSparseIgnoreZero := this &? SparseIgnoreZero in
    if this &? Indexed then
      kernel kCalculateIndexedSparseScaledMarginalCrossEntropyError
        [u32 position; u32 batch; u32 stride; ptr pUnit; this ~> pbIndex;
         this ~> pbSparseStart; this ~> pbSparseEnd; this ~> pbSparseIndex;
         pDataWeight; flag bSparseIgnoreZero] this
    else
      kernel kCalculateSparseScaledMarginalCrossEntropyError
        [u32 position; u32 batch; u32 stride; ptr pUnit; this ~> pbSparseStart;
         this ~> pbSparseEnd; this ~> pbSparseIndex; pDataWeight;
         flag bSparseIgnoreZero] this
  else
    if this &? Indexed then
      kernel kCalculateIndexedScaledMarginalCrossEntropyError
        [u32 position; u32 batch; u32 stride; ptr pUnit; this ~> pbIndex;
         this ~> pbData; pDataWeight] this
    else
      kernel kCalculateScaledMarginalCrossEntropyError
        [u32 position; u32 batch; u32 stride; ptr pUnit; this ~> pbData;
         pDataWeight] this.

Definition CalculateMultinomialCrossEntropyError (position batch stride : Z) (pUnit : Ptr) : M NNFloat :=
  fun this =>
  let pDataWeight := if this &? Weighted then this ~> pbDataWeight else NULL in
  if this &? Sparse then
    if this &? Boolean then
      if this &? Indexed then
        kernel kCalculateIndexedSparseMultinomialCrossEntropyError
          [u32 position; u32 batch; u32 stride; ptr pUnit; this ~> pbIndex;
           this ~> pbSparseStart; this ~> pbSparseEnd; this ~> pbSparseIndex;
           pDataWeight] this
      else
        kernel kCalculateSparseMultinomialCrossEntropyError
          [u32 position; u32 batch; u32 stride; ptr pUnit;
           this ~> pbSparseStart; this ~> pbSparseEnd; this ~> pbSparseIndex;
           pDataWeight] this
    else
      if this &? Indexed then
        kernel kCalculateIndexedSparseAnalogMultinomialCrossEntropyError
          [u32 position; u32 batch; u32 stride; ptr pUnit; this ~> pbIndex;
           this ~> pbSparseStart; this ~> pbSparseEnd; this ~> pbSparseIndex;
           pDataWeight; this ~> pbSparseData] this
      else
        kernel kCalculateSparseAnalogMultinomialCrossEntropyError
          [u32 position; u32 batch; u32 stride; ptr pUnit;
           this ~> pbSparseStart; this ~> pbSparseEnd; this ~> pbSparseIndex;
           pDataWeight; this ~> pbSparseData] this
  else
    if this &? Indexed then
      kernel kCalculateIndexedMultinomialCrossEntropyError
        [u32 position; u32 batch; u32 stride; ptr pUnit; this ~> pbIndex;
         this ~> pbData; pDataWeight] this
    else
      kernel kCalculateMultinomialCrossEntropyError
        [u32 position; u32 batch; u32 stride; ptr pUnit; this ~> pbData;
         pDataWeight] this.

Definition CalculateMultinomialScaledMarginalCrossEntropyError (position batch stride : Z) (pUnit : Ptr) : M NNFloat :=
  fun this =>
  let pDataWeight := if this &? Weighted then this ~> pbDataWeight else NULL in
  if this &? Sparse then
    if this &? Boolean then
      if this &? Indexed then
        kernel kCalculateIndexedSparseMultinomialScaledMarginalCrossEntropyError
          [u32 position; u32 batch; u32 stride; ptr pUnit; this ~> pbIndex;
           this ~> pbSparseStart; this ~> pbSparseEnd; this ~> pbSparseIndex;
           pDataWeight] this
      else
        kernel kCalculateSparseMultinomialScaledMarginalCrossEntropyError
          [u32 position; u32 batch; u32 stride; ptr pUnit;
           this ~> pbSparseStart; this ~> pbSparseEnd; this ~> pbSparseIndex;
           pDataWeight] this
    else
      if this &? Indexed then
        kernel kCalculateIndexedSparseAnalogMultinomialScaledMarginalCrossEntropyError
          [u32 position; u32 batch; u32 stride; ptr pUnit; this ~> pbIndex;
           this ~> pbSparseStart; this ~> pbSparseEnd; this ~> pbSparseIndex;
           pDataWeight; this ~> pbSparseData] this
      else
        kernel kCalculateSparseAnalogMultinomialScaledMarginalCrossEntropyError
          [u32 position; u32 batch; u32 stride; ptr pUnit;
           this ~> pbSparseStart; this ~> pbSparseEnd; this ~> pbSparseIndex;
           pDataWeight; this ~> pbSparseData] this
  else
    if this &? Indexed then
      kernel kCalculateIndexedMultinomialScaledMarginalCrossEntropyError
        [u32 position; u32 batch; u32 stride; ptr pUnit; this ~> pbIndex;
         this ~> pbData; pDataWeight] this
    else
      kernel kCalculateMultinomialScaledMarginalCrossEntropyError
        [u32 position; u32 batch; u32 stride; ptr pUnit; this ~> pbData;
         pDataWeight] this.

Definition CalculateDataScaledMarginalCrossEntropyError (position batch stride : Z) (pUnit : Ptr) : M NNFloat :=
  fun this =>
  let pDataWeight := if this &? Weighted then this ~> pbDataWeight else NULL in
  if this &? Sparse then
    let bSparseIgnoreZero := this &? SparseIgnoreZero in
    if this &? Boolean then
      if this &? Indexed then
        kernel kCalculateIndexedSparseScaledMarginalCrossEntropyError
          [u32 position; u32 batch; u32 stride; ptr pUnit; this ~> pbIndex;
           this ~> pbSparseStart; this ~> pbSparseEnd; this ~> pbSparseIndex;
           pDataWeight; flag bSparseIgnoreZero] this
      else
        kernel kCalculateSparseScaledMarginalCrossEntropyError
          [u32 position; u32 batch; u32 stride; ptr pUnit;
           this ~> pbSparseStart; this ~> pbSparseEnd; this ~> pbSparseIndex;
           pDataWeight; flag bSparseIgnoreZero] this
    else
      if this &? Indexed then
        kernel kCalculateIndexedSparseDataScaledMarginalCrossEntropyError
          [u32 position; u32 batch; u32 stride; ptr pUnit; this ~> pbIndex;
           this ~> pbSparseStart; this ~> pbSparseEnd; this ~> pbSparseIndex;
           this ~> pbSparseData; flag bSparseIgnoreZero] this
      else
        kernel kCalculateSparseDataScaledMarginalCrossEntropyError
          [u32 position; u32 batch; u32 stride; ptr pUnit;
           this ~> pbSparseStart; this ~> pbSparseEnd; this ~> pbSparseIndex;
           this ~> pbSparseData; flag bSparseIgnoreZero] this
  else
    (emit (cout "unsupported data format of this cost function") ;;
     emit Shutdown ;;
     exit_ (-1)) this.

Definition CalculateHingeError (position batch stride : Z) (pUnit : Ptr) : M NNFloat :=
  fun this =>
  let pDataWeight := if this &? Weighted then this ~> pbDataWeight else NULL in
  if this &? Indexed then
    kernel kCalculateIndexedHingeError
      [u32 position; u32 batch; u32 stride; ptr pUnit; this ~> pbIndex;
       this ~> pbData; pDataWeight] this
  else
    kernel kCalculateHingeError
      [u32 position; u32 batch; u32 stride; ptr pUnit; this ~> pbData;
       pDataWeight] this.

(** *** Output-delta functions *)

Definition CalculateL1OutputDelta (activation : Activation) (position batch stride : Z)
  (pUnit pDelta : Ptr) (slope alpha lambda : NNFloat) : M bool :=
  (fun this =>
     let pDataWeight := if this &? Weighted then this ~> pbDataWeight else NULL in
     if this &? Sparse then
       let bSparseIgnoreZero := this &? SparseIgnoreZero in
       if this &? Indexed then
         kernel kCalculateIndexedSparseL1OutputDelta
           [act activation; u32 position; u32 batch; u32 stride; ptr pUnit;
            ptr pDelta; this ~> pbIndex; this ~> pbSparseStart;
            this ~> pbSparseEnd; this ~> pbSparseIndex; pDataWeight;
            flag bSparseIgnoreZero; flt slope; flt alpha; flt lambda] this
       else
         kernel kCalculateSparseL1OutputDelta
           [act activation; u32 position; u32 batch; u32 stride; ptr pUnit;
            ptr pDelta; this ~> pbSparseStart; this ~> pbSparseEnd;
            this ~> pbSparseIndex; pDataWeight; flag bSparseIgnoreZero;
            flt slope; flt alpha; flt lambda] this
     else
       if this &? Indexed then
         kernel kCalculateIndexedL1OutputDelta
           [act activation; u32 position; u32 batch; u32 stride; ptr pUnit;
            ptr pDelta; this ~> pbIndex; this ~> pbData; pDataWeight;
            flt slope; flt alpha; flt lambda] this
       else
         kernel kCalculateL1OutputDelta
           [act activation; u32 position; u32 batch; u32 stride; ptr pUnit;
            ptr pDelta; this ~> pbData; pDataWeight; flt slope; flt alpha;
            flt lambda] this) ;;
  ret true.

Definition CalculateCrossEntropyOutputDelta (activation : Activation) (position batch stride : Z)
  (pUnit pDelta : Ptr) : M bool :=
  (fun this =>
     let pDataWeight := if this &? Weighted then this ~> pbDataWeight else NULL in
     if this &? Sparse then
       let bSparseIgnoreZero := this &? SparseIgnoreZero in
       if this &? Indexed then
         kernel kCalculateIndexedSparseCrossEntropyOutputDelta
           [act activation; u32 position; u32 batch; u32 stride; ptr pUnit;
            ptr pDelta; this ~> pbIndex; this ~> pbSparseStart;
            this ~> pbSparseEnd; this ~> pbSparseIndex; pDataWeight;
            flag bSparseIgnoreZero] this
       else
         kernel kCalculateSparseCrossEntropyOutputDelta
           [act activation; u32 position; u32 batch; u32 stride; ptr pUnit;
            ptr pDelta; this ~> pbSparseStart; this ~> pbSparseEnd;
            this ~> pbSparseIndex; pDataWeight; flag bSparseIgnoreZero] this
     else
       if this &? Indexed then
         kernel kCalculateIndexedCrossEntropyOutputDelta
           [act activation; u32 position; u32 batch; u32 stride; ptr pUnit;
            ptr pDelta; this ~> pbIndex; this ~> pbData; pDataWeight] this
       else
         kernel kCalculateCrossEntropyOutputDelta
           [act activation; u32 position; u32 batch; u32 stride; ptr pUnit;
            ptr pDelta; this ~> pbData; pDataWeight] this) ;;
  ret true.

Definition CalculateScaledMarginalCrossEntropyOutputDelta (activation : Activation) (position batch stride : Z)
  (pUnit pDelta : Ptr) : M bool :=
  (fun this =>
     let pDataWeight := if this &? Weighted then this ~> pbDataWeight else NULL in
     if this &? Sparse then
       let bSparseIgnoreZero := this &? SparseIgnoreZero in
       if this &? Indexed then
         kernel kCalculateIndexedSparseScaledMarginalCrossEntropyOutputDelta
           [act activation; u32 position; u32 batch; u32 stride; ptr pUnit;
            ptr pDelta; this ~> pbIndex; this ~> pbSparseStart;
            this ~> pbSparseEnd; this ~> pbSparseIndex; pDataWeight;
            flag bSparseIgnoreZero] this
       else
         kernel kCalculateSparseScaledMarginalCrossEntropyOutputDelta
           [act activation; u32 position; u32 batch; u32 stride; ptr pUnit;
            ptr pDelta; this ~> pbSparseStart; this ~> pbSparseEnd;
            this ~> pbSparseIndex; pDataWeight; flag bSparseIgnoreZero] this
     else
       if this &? Indexed then
         kernel kCalculateIndexedScaledMarginalCrossEntropyOutputDelta
           [act activation; u32 position; u32 batch; u32 stride; ptr pUnit;
            ptr pDelta; this ~> pbIndex; this ~> pbData; pDataWeight] this
       else
         kernel kCalculateScaledMarginalCrossEntropyOutputDelta
           [act activation; u32 position; u32 batch; u32 stride; ptr pUnit;
            ptr pDelta; this ~> pbData; pDataWeight] this) ;;
  ret true.

Definition CalculateOutputDelta (activation : Activation) (position batch stride : Z)
  (pUnit pDelta : Ptr) (slope alpha lambda : NNFloat) : M bool :=
  (fun this =>
     let pDataWeight := if this &? Weighted then this ~> pbDataWeight else NULL in
     if this &? Sparse then
       let bSparseIgnoreZero := this &? SparseIgnoreZero in
       if this &? Boolean then
         if this &? Indexed then
           kernel kCalculateIndexedSparseOutputDelta
             [act activation; u32 position; u32 batch; u32 stride; ptr pUnit;
              ptr pDelta; this ~> pbIndex; this ~> pbSparseStart;
              this ~> pbSparseEnd; this ~> pbSparseIndex; pDataWeight;
              flag bSparseIgnoreZero; flt slope; flt alpha; flt lambda] this
         else
           kernel kCalculateSparseOutputDelta
             [act activation; u32 position; u32 batch; u32 stride; ptr pUnit;
              ptr pDelta; this ~> pbSparseStart; this ~> pbSparseEnd;
              this ~> pbSparseIndex; pDataWeight; flag bSparseIgnoreZero;
              flt slope; flt alpha; flt lambda] this
       else
         if this &? Indexed then
           kernel kCalculateIndexedSparseAnalogOutputDelta
             [act activation; u32 position; u32 batch; u32 stride; ptr pUnit;
              ptr pDelta; this ~> pbIndex; this ~> pbSparseStart;
              this ~> pbSparseEnd; this ~> pbSparseIndex; pDataWeight;
              this ~> pbSparseData; flag bSparseIgnoreZero; flt slope;
              flt alpha; flt lambda] this
         else
           kernel kCalculateSparseAnalogOutputDelta
             [act activation; u32 position; u32 batch; u32 stride; ptr pUnit;
              ptr pDelta; this ~> pbSparseStart; this ~> pbSparseEnd;
              this ~> pbSparseIndex; pDataWeight; this ~> pbSparseData;
              flag bSparseIgnoreZero; flt slope; flt alpha; flt lambda] this
     else
       if this &? Indexed then
         kernel kCalculateIndexedOutputDelta
           [act activation; u32 position; u32 batch; u32 stride; ptr pUnit;
            ptr pDelta; this ~> pbIndex; this ~> pbData; pDataWeight;
            flt slope; flt alpha; flt lambda] this
       else
         kernel kCalculateOutputDelta
           [act activation; u32 position; u32 batch; u32 stride; ptr pUnit;
            ptr pDelta; this ~> pbData; pDataWeight; flt slope; flt alpha;
            flt lambda] this) ;;
  ret true.

Definition CalculateL2HingeOutputDelta (activation : Activation) (position batch stride : Z)
  (pUnit pDelta : Ptr) (slope alpha lambda : NNFloat) : M bool :=
  (fun this =>
     let pDataWeight := if this &? Weighted then this ~> pbDataWeight else NULL in
     if this &? Sparse then
       let bSparseIgnoreZero := this &? SparseIgnoreZero in
       if this &? Boolean then
         if this &? Indexed then
           kernel kCalculateIndexedSparseL2HingeOutputDelta
             [act activation; u32 position; u32 batch; u32 stride; ptr pUnit;
              ptr pDelta; this ~> pbIndex; this ~> pbSparseStart;
              this ~> pbSparseEnd; this ~> pbSparseIndex; pDataWeight;
              flag bSparseIgnoreZero; flt slope; flt alpha; flt lambda] this
         else
           kernel kCalculateSparseL2HingeOutputDelta
             [act activation; u32 position; u32 batch; u32 stride; ptr pUnit;
              ptr pDelta; this ~> pbSparseStart; this ~> pbSparseEnd;
              this ~> pbSparseIndex; pDataWeight; flag bSparseIgnoreZero;
              flt slope; flt alpha; flt lambda] this
       else
         if this &? Indexed then
           kernel kCalculateIndexedSparseAnalogL2HingeOutputDelta
             [act activation; u32 position; u32 batch; u32 stride; ptr pUnit;
              ptr pDelta; this ~> pbIndex; this ~> pbSparseStart;
              this ~> pbSparseEnd; this ~> pbSparseIndex; pDataWeight;
              this ~> pbSparseData; flag bSparseIgnoreZero; flt slope;
              flt alpha; flt lambda] this
         else
           kernel kCalculateSparseAnalogL2HingeOutputDelta
             [act activation; u32 position; u32 batch; u32 stride; ptr pUnit;
              ptr pDelta; this ~> pbSparseStart; this ~> pbSparseEnd;
              this ~> pbSparseIndex; pDataWeight; this ~> pbSparseData;
              flag bSparseIgnoreZero; flt slope; flt alpha; flt lambda] this
     else
       if this &? Indexed then
         kernel kCalculateIndexedL2HingeOutputDelta
           [act activation; u32 position; u32 batch; u32 stride; ptr pUnit;
            ptr pDelta; this ~> pbIndex; this ~> pbData; pDataWeight;
            flt slope; flt alpha; flt lambda] this
       else
         kernel kCalculateL2HingeOutputDelta
           [act activation; u32 position; u32 batch; u32 stride; ptr pUnit;
            ptr pDelta; this ~> pbData; pDataWeight; flt slope; flt alpha;
            flt lambda] this) ;;
  ret true.

Definition CalculateDataScaledMarginalCrossEntropyOutputDelta (activation : Activation) (position batch stride : Z)
  (pUnit pDelta : Ptr) : M bool :=
  (fun this =>
     if this &? Sparse then
       let bSparseIgnoreZero := this &? SparseIgnoreZero in
       if this &? Indexed then
         kernel kCalculateIndexedSparseDataScaledMarginalCrossEntropyOutputDelta
           [act activation; u32 position; u32 batch; u32 stride; ptr pUnit;
            ptr pDelta; this ~> pbIndex; this ~> pbSparseStart;
            this ~> pbSparseEnd; this ~> pbSparseIndex; this ~> pbSparseData;
            flag bSparseIgnoreZero] this
       else
         kernel kCalculateSparseDataScaledMarginalCrossEntropyOutputDelta
           [act activation; u32 position; u32 batch; u32 stride; ptr pUnit;
            ptr pDelta; this ~> pbSparseStart; this ~> pbSparseEnd;
            this ~> pbSparseIndex; this ~> pbSparseData;
            flag bSparseIgnoreZero] this
     else
       (emit (cout "unsupported data format of this cost function") ;;
        emit Shutdown ;;
        exit_ (-1)) this) ;;
  ret true.

Definition CalculateHingeOutputDelta (activation : Activation) (position batch stride : Z)
  (pUnit pDelta : Ptr) : M bool :=
  (fun this =>
     let pDataWeight := if this &? Weighted then this ~> pbDataWeight else NULL in
     if this &? Indexed then
       kernel kCalculateIndexedHingeOutputDelta
         [act activation; u32 position; u32 batch; u32 stride; ptr pUnit;
          ptr pDelta; this ~> pbIndex; this ~> pbData; pDataWeight] this
     else
       kernel kCalculateHingeOutputDelta
         [act activation; u32 position; u32 batch; u32 stride; ptr pUnit;
          ptr pDelta; this ~> pbData; pDataWeight] this) ;;
  ret true.

End Dispatch.

(** ** Vocabulary for the statements *)

(** The error and output-delta member functions of [NNDataSet<T>]. *)
Inductive Dispatcher : Type :=
| L1Error
| L2Error
| L2HingeError
| CrossEntropyError
| ScaledMarginalCrossEntropyError
| MultinomialCrossEntropyError
| MultinomialScaledMarginalCrossEntropyError
| DataScaledMarginalCrossEntropyError
| HingeError
| L1OutputDelta
| CrossEntropyOutputDelta
| ScaledMarginalCrossEntropyOutputDelta
| OutputDelta
| L2HingeOutputDelta
| DataScaledMarginalCrossEntropyOutputDelta
| HingeOutputDelta.

Definition data_scaled (d : Dispatcher) : bool :=
  match d with
  | DataScaledMarginalCrossEntropyError
  | DataScaledMarginalCrossEntropyOutputDelta => true
  | _ => false
  end.

Section Vocabulary.
Context `{Attributes} `{Collaborators}.

(** The actual parameters of a call, those a given member does not take
    being ignored by it. *)
Record Call : Type := {
  c_activation : Activation;
  c_position : Z;
  c_batch : Z;
  c_stride : Z;
  c_pUnit : Ptr;
  c_pDelta : Ptr;
  c_slope : NNFloat;
  c_alpha : NNFloat;
  c_lambda : NNFloat
}.

(** The log of calling member [d] with parameters [c] on [this]. *)
Definition trace (d : Dispatcher) (c : Call) (this : NNDataSet) : list Event :=
  let a := c_activation c in
  let p := c_position c in
  let b := c_batch c in
  let s := c_stride c in
  let u := c_pUnit c in
  let dl := c_pDelta c in
  match d with
  | L1Error => log (CalculateL1Error p b s u this)
  | L2Error => log (CalculateL2Error p b s u this)
  | L2HingeError => log (CalculateL2HingeError p b s u this)
  | CrossEntropyError => log (CalculateCrossEntropyError p b s u this)
  | ScaledMarginalCrossEntropyError =>
      log (CalculateScaledMarginalCrossEntropyError p b s u this)
  | MultinomialCrossEntropyError =>
      log (CalculateMultinomialCrossEntropyError p b s u this)
  | MultinomialScaledMarginalCrossEntropyError =>
      log (CalculateMultinomialScaledMarginalCrossEntropyError p b s u this)
  | DataScaledMarginalCrossEntropyError =>
      log (CalculateDataScaledMarginalCrossEntropyError p b s u this)
  | HingeError => log (CalculateHingeError p b s u this)
  | L1OutputDelta =>
      log (CalculateL1OutputDelta a p b s u dl (c_slope c) (c_alpha c) (c_lambda c) this)
  | CrossEntropyOutputDelta => log (CalculateCrossEntropyOutputDelta a p b s u dl this)
  | ScaledMarginalCrossEntropyOutputDelta =>
      log (CalculateScaledMarginalCrossEntropyOutputDelta a p b s u dl this)
  | OutputDelta =>
      log (CalculateOutputDelta a p b s u dl (c_slope c) (c_alpha c) (c_lambda c) this)
  | L2HingeOutputDelta =>
      log (CalculateL2HingeOutputDelta a p b s u dl (c_slope c) (c_alpha c) (c_lambda c) this)
  | DataScaledMarginalCrossEntropyOutputDelta =>
      log (CalculateDataScaledMarginalCrossEntropyOutputDelta a p b s u dl this)
  | HingeOutputDelta => log (CalculateHingeOutputDelta a p b s u dl this)
  end.

(** The weight argument every member but the data-scaled output delta
    computes first: the device weights of a weighted dataset, else null. *)
Definition weight_of (this : NNDataSet) : Arg :=
  if test (_attributes this) Weighted
  then dev pbDataWeight (_pDevData this pbDataWeight) else NULL.


Definition is_flt (a : Arg) : bool :=
  match a with
  | flt _ => true
  | _ => false
  end.

Definition set_attributes (a : Z) (this : NNDataSet) : NNDataSet :=
  {| _attributes := a;
     _bDirty := _bDirty this;
     _batch := _batch this;
     _pbData := _pbData this;
     _pbSparseData := _pbSparseData this;
     _pbSparseStart := _pbSparseStart this;
     _pbSparseEnd := _pbSparseEnd this;
     _pbSparseIndex := _pbSparseIndex this;
     _pbDataWeight := _pbDataWeight this;
     _pbIndex := _pbIndex this;
     _pbDenoisingRandom := _pbDenoisingRandom this;
     _pbSparseTransposedStart := _pbSparseTransposedStart this;
     _pbSparseTransposedEnd := _pbSparseTransposedEnd this;
     _pbSparseTransposedIndex := _pbSparseTransposedIndex this;
     _pbSparseTransposedData := _pbSparseTransposedData this |}.

(** The kernels that append to the transposed structure. *)
Definition transposition_kernels : list Kernel :=
  [kCalculateIndexedSparseTransposedMatrix;
   kCalculateSparseTransposedMatrix;
   kCalculateIndexedSparseTransposedAnalogMatrix;
   kCalculateSparseTransposedAnalogMatrix;
   kCalculateIndexedSparseTransposedDenoisedMatrix;
   kCalculateSparseTransposedDenoisedMatrix;
   kCalculateIndexedSparseTransposedAnalogDenoisedMatrix;
   kCalculateSparseTransposedAnalogDenoisedMatrix].

(** What the data-scaled members do with a dataset that is not sparse. *)
Definition fatal : list Event :=
  [cout "unsupported data format of this cost function"; Shutdown; exit (-1)].

End Vocabulary.

(** ** A concrete setting for evaluating the model *)

(** Modelled from the spec: NNEnum.h is not among the sources and the
    specification names the attribute bits (Sparse, Boolean/Analog, Indexed,
    Weighted, SparseIgnoreZero) without giving their values.  For concrete
    runs each is taken to be a single bit of its own. *)
Definition NNEnum_h : Attributes :=
  {| Sparse := 1; Boolean := 2; SparseIgnoreZero := 32; Indexed := 64; Weighted := 128 |}.

(** Integers stand for numbers and addresses alike in the concrete runs. *)
Definition sample_types : Types :=
  {| NNFloat := Z; T := Z; DataType := unit; Ptr := Z |}.

Section Sample.
#[local] Existing Instance NNEnum_h.
#[local] Existing Instance sample_types.

(** A stand-in for the collaborators: a kernel returns how many arguments
    it was given and leaves the dataset alone; rebuilding the transposed
    structure clears the dirty flag, records the batch and sets the start
    offsets. *)
Definition sample_generate (batch : Z) (pLayer : Z) (this : NNDataSet) : NNDataSet * bool :=
  ({| _attributes := _attributes this;
      _bDirty := false;
      _batch := batch;
      _pbData := _pbData this;
      _pbSparseData := _pbSparseData this;
      _pbSparseStart := _pbSparseStart this;
      _pbSparseEnd := _pbSparseEnd this;
      _pbSparseIndex := _pbSparseIndex this;
      _pbDataWeight := _pbDataWeight this;
      _pbIndex := _pbIndex this;
      _pbDenoisingRandom := _pbDenoisingRandom this;
      _pbSparseTransposedStart := [0; batch];
      _pbSparseTransposedEnd := _pbSparseTransposedEnd this;
      _pbSparseTransposedIndex := _pbSparseTransposedIndex this;
      _pbSparseTransposedData := _pbSparseTransposedData this |}, true).

Definition sample_collaborators : Collaborators :=
  {| kernel_value := fun _ args => Z.of_nat (List.length args);
     kernel_writes := fun _ _ this => this;
     GenerateSparseTransposedMatrix_does := sample_generate |}.

(** A dataset of two examples over three features with the given
    attribute word: dense payload, the same matrix in sparse form, one
    weight per example. *)
Definition sample (attributes : Z) : NNDataSet :=
  {| _attributes := attributes;
     _bDirty := true;
     _batch := 0;
     _pbData := [1; 0; 0; 0; 1; 1];
     _pbSparseData := [1; 1; 1];
     _pbSparseStart := [0; 1];
     _pbSparseEnd := [1; 3];
     _pbSparseIndex := [0; 1; 2];
     _pbDataWeight := [5; 7];
     _pbIndex := [0; 1];
     _pbDenoisingRandom := [];
     _pbSparseTransposedStart := [];
     _pbSparseTransposedEnd := [];
     _pbSparseTransposedIndex := [];
     _pbSparseTransposedData := [] |}.

Definition sample_descriptor (attributes : Z) : NNDataSetDescriptor.t :=
  {| NNDataSetDescriptor._name := "input";
     NNDataSetDescriptor._dataType := tt;
     NNDataSetDescriptor._attributes := attributes;
     NNDataSetDescriptor._dim := {| _dimensions := 1; _width := 3; _height := 1; _length := 1 |};
     NNDataSetDescriptor._examples := 2;
     NNDataSetDescriptor._sparseDensity := 0 |}.

Definition sample_call : Call :=
  {| c_activation := Sigmoid;
     c_position := 0;
     c_batch := 2;
     c_stride := 3;
     c_pUnit := 4096;
     c_pDelta := 8192;
     c_slope := 1;
     c_alpha := 2;
     c_lambda := 3 |}.

End Sample.

(** ** Input materialisation, sparse products and the weight gradient

    The remaining dispatching members of [NNDataSet<T>].  Each computes its
    optional arguments, launches one kernel of kernels.h and returns
    [true]; it touches nothing else on the host side, so a run is the
    launch it performs and the value it returns. *)

Inductive LayerKernel : Type :=
(* dense input *)
| kLoadIndexedInputUnit
| kLoadInputUnit
(* sparse input *)
| kLoadIndexedSparseInputUnit
| kLoadSparseInputUnit
| kLoadIndexedSparseAnalogInputUnit
| kLoadSparseAnalogInputUnit
(* sparse denoised input *)
| kLoadIndexedSparseDenoisedInputUnit
| kLoadSparseDenoisedInputUnit
| kLoadIndexedSparseAnalogDenoisedInputUnit
| kLoadSparseAnalogDenoisedInputUnit
(* sparse product *)
| kCalculateIndexedSparseZ
| kCalculateSparseZ
| kCalculateIndexedSparseAnalogZ
| kCalculateSparseAnalogZ
(* sparse denoised product *)
| kCalculateIndexedSparseDenoisedZ
| kCalculateSparseDenoisedZ
| kCalculateIndexedSparseAnalogDenoisedZ
| kCalculateSparseAnalogDenoisedZ
(* transposed weight gradient *)
| kCalculateSparseTransposedWeightGradient
| kCalculateSparseTransposedAnalogWeightGradient.

Section Layer.
Context `{Attributes} `{Types}.

Notation "this &? mask" := (test (_attributes this) mask) (at level 40).
Notation "this ~> b" := (dev b (_pDevData this b)) (at level 30).

Record Launch : Type := {
  entry : LayerKernel;
  actuals : list Arg
}.

Definition LoadInputUnit (position batch stride : Z) (pUnit : Ptr)
  (this : NNDataSet) : Launch * bool :=
  (if this &? Indexed then
     {| entry := kLoadIndexedInputUnit;
        actuals := [u32 position; u32 batch; u32 stride; ptr pUnit;
                    this ~> pbIndex; this ~> pbData] |}
   else
     {| entry := kLoadInputUnit;
        actuals := [u32 position; u32 batch; u32 stride; ptr pUnit;
                    this ~> pbData] |},
   true).

Definition LoadSparseInputUnit (position batch stride : Z) (pUnit : Ptr)
  (this : NNDataSet) : Launch * bool :=
  let pDataWeight := if this &? Weighted then this ~> pbDataWeight else NULL in
  (if this &? Boolean then
     if this &? Indexed then
       {| entry := kLoadIndexedSparseInputUnit;
          actuals := [u32 position; u32 batch; u32 stride; ptr pUnit;
                      this ~> pbIndex; this ~> pbSparseStart; this ~> pbSparseEnd;
                      this ~> pbSparseIndex; pDataWeight] |}
     else
       {| entry := kLoadSparseInputUnit;
          actuals := [u32 position; u32 batch; u32 stride; ptr pUnit;
                      this ~> pbSparseStart; this ~> pbSparseEnd;
                      this ~> pbSparseIndex; pDataWeight] |}
   else
     if this &? Indexed then
       {| entry := kLoadIndexedSparseAnalogInputUnit;
          actuals := [u32 position; u32 batch; u32 stride; ptr pUnit;
                      this ~> pbIndex; this ~> pbSparseStart; this ~> pbSparseEnd;
                      this ~> pbSparseIndex; pDataWeight; this ~> pbSparseData] |}
     else
       {| entry := kLoadSparseAnalogInputUnit;
          actuals := [u32 position; u32 batch; u32 stride; ptr pUnit;
                      this ~> pbSparseStart; this ~> pbSparseEnd;
                      this ~> pbSparseIndex; pDataWeight; this ~> pbSparseData] |},
   true).

Definition LoadSparseDenoisedInputUnit (position batch stride : Z) (pUnit : Ptr)
  (this : NNDataSet) : Launch * bool :=
  let pDataWeight := if this &? Weighted then this ~> pbDataWeight else NULL in
  (if this &? Boolean then
     if this &? Indexed then
       {| entry := kLoadIndexedSparseDenoisedInputUnit;
          actuals := [u32 position; u32 batch; u32 stride; ptr pUnit;
                      this ~> pbIndex; this ~> pbSparseStart; this ~> pbSparseEnd;
                      this ~> pbSparseIndex; pDataWeight;
                      this ~> pbDenoisingRandom] |}
     else
       {| entry := kLoadSparseDenoisedInputUnit;
          actuals := [u32 position; u32 batch; u32 stride; ptr pUnit;
                      this ~> pbSparseStart; this ~> pbSparseEnd;
                      this ~> pbSparseIndex; pDataWeight;
                      this ~> pbDenoisingRandom] |}
   else
     if this &? Indexed then
       {| entry := kLoadIndexedSparseAnalogDenoisedInputUnit;
          actuals := [u32 position; u32 batch; u32 stride; ptr pUnit;
                      this ~> pbIndex; this ~> pbSparseStart; this ~> pbSparseEnd;
                      this ~> pbSparseIndex; pDataWeight; this ~> pbSparseData;
                      this ~> pbDenoisingRandom] |}
     else
       {| entry := kLoadSparseAnalogDenoisedInputUnit;
          actuals := [u32 position; u32 batch; u32 stride; ptr pUnit;
                      this ~> pbSparseStart; this ~> pbSparseEnd;
                      this ~> pbSparseIndex; pDataWeight; this ~> pbSparseData;
                      this ~> pbDenoisingRandom] |},
   true).

Definition CalculateSparseZ (position batch stride : Z) (pWeight pUnit : Ptr)
  (beta : NNFloat) (this : NNDataSet) : Launch * bool :=
  let pDataWeight := if this &? Weighted then this ~> pbDataWeight else NULL in
  (if this &? Boolean then
     if this &? Indexed then
       {| entry := kCalculateIndexedSparseZ;
          actuals := [u32 position; u32 batch; u32 stride; ptr pWeight;
                      this ~> pbIndex; this ~> pbSparseStart; this ~> pbSparseEnd;
                      this ~> pbSparseIndex; pDataWeight; ptr pUnit; flt beta] |}
     else
       {| entry := kCalculateSparseZ;
          actuals := [u32 position; u32 batch; u32 stride; ptr pWeight;
                      this ~> pbSparseStart; this ~> pbSparseEnd;
                      this ~> pbSparseIndex; pDataWeight; ptr pUnit; flt beta] |}
   else
     if this &? Indexed then
       {| entry := kCalculateIndexedSparseAnalogZ;
          actuals := [u32 position; u32 batch; u32 stride; ptr pWeight;
                      this ~> pbIndex; this ~> pbSparseStart; this ~> pbSparseEnd;
                      this ~> pbSparseIndex; pDataWeight; this ~> pbSparseData;
                      ptr pUnit; flt beta] |}
     else
       {| entry := kCalculateSparseAnalogZ;
          actuals := [u32 position; u32 batch; u32 stride; ptr pWeight;
                      this ~> pbSparseStart; this ~> pbSparseEnd;
                      this ~> pbSparseIndex; pDataWeight; this ~> pbSparseData;
                      ptr pUnit; flt beta] |},
   true).

Definition CalculateSparseDenoisedZ (position batch stride : Z) (pWeight pUnit : Ptr)
  (beta : NNFloat) (this : NNDataSet) : Launch * bool :=
  let pDataWeight := if this &? Weighted then this ~> pbDataWeight else NULL in
  (if this &? Boolean then
     if this &? Indexed then
       {| entry := kCalculateIndexedSparseDenoisedZ;
          actuals := [u32 position; u32 batch; u32 stride; ptr pWeight;
                      this ~> pbIndex; this ~> pbSparseStart; this ~> pbSparseEnd;
                      this ~> pbSparseIndex; pDataWeight;
                      this ~> pbDenoisingRandom; ptr pUnit; flt beta] |}
     else
       {| entry := kCalculateSparseDenoisedZ;
          actuals := [u32 position; u32 batch; u32 stride; ptr pWeight;
                      this ~> pbSparseStart; this ~> pbSparseEnd;
                      this ~> pbSparseIndex; pDataWeight;
                      this ~> pbDenoisingRandom; ptr pUnit; flt beta] |}
   else
     if this &? Indexed then
       {| entry := kCalculateIndexedSparseAnalogDenoisedZ;
          actuals := [u32 position; u32 batch; u32 stride; ptr pWeight;
                      this ~> pbIndex; this ~> pbSparseStart; this ~> pbSparseEnd;
                      this ~> pbSparseIndex; pDataWeight; this ~> pbSparseData;
                      this ~> pbDenoisingRandom; ptr pUnit; flt beta] |}
     else
       {| entry := kCalculateSparseAnalogDenoisedZ;
          actuals := [u32 position; u32 batch; u32 stride; ptr pWeight;
                      this ~> pbSparseStart; this ~> pbSparseEnd;
                      this ~> pbSparseIndex; pDataWeight; this ~> pbSparseData;
                      this ~> pbDenoisingRandom; ptr pUnit; flt beta] |},
   true).

Definition CalculateSparseTransposedWeightGradient (alpha beta : NNFloat) (m n : Z)
  (pDelta pWeightGradient : Ptr) (this : NNDataSet) : Launch * bool :=
  (if (this &? Boolean) && negb (this &? Weighted) then
     {| entry := kCalculateSparseTransposedWeightGradient;
        actuals := [flt alpha; flt beta; u32 m; u32 n;
                    this ~> pbSparseTransposedStart; this ~> pbSparseTransposedEnd;
                    this ~> pbSparseTransposedIndex; ptr pDelta;
                    ptr pWeightGradient] |}
   else
     {| entry := kCalculateSparseTransposedAnalogWeightGradient;
        actuals := [flt alpha; flt beta; u32 m; u32 n;
                    this ~> pbSparseTransposedStart; this ~> pbSparseTransposedEnd;
                    this ~> pbSparseTransposedIndex; this ~> pbSparseTransposedData;
                    ptr pDelta; ptr pWeightGradient] |},
   true).

(** *** Vocabulary for the statements about buffers *)

Definition buffer_tag (b : GpuBuffer) : nat :=
  match b with
  | pbData => 0
  | pbSparseData => 1
  | pbSparseStart => 2
  | pbSparseEnd => 3
  | pbSparseIndex => 4
  | pbDataWeight => 5
  | pbIndex => 6
  | pbDenoisingRandom => 7
  | pbSparseTransposedStart => 8
  | pbSparseTransposedEnd => 9
  | pbSparseTransposedIndex => 10
  | pbSparseTransposedData => 11
  end.

(** Whether an actual argument is a pointer into buffer [b]. *)
Definition points_into (b : GpuBuffer) (a : Arg) : bool :=
  match a with
  | dev b' _ => Nat.eqb (buffer_tag b) (buffer_tag b')
  | _ => false
  end.

(** Whether a launch with arguments [args] is handed buffer [b]. *)
Definition uses (b : GpuBuffer) (args : list Arg) : bool :=
  existsb (points_into b) args.

(** The arguments of a launch other than the pointers into [b]. *)
Definition without (b : GpuBuffer) (args : list Arg) : list Arg :=
  filter (fun a => negb (points_into b a)) args.

Definition set_pbSparseData (l : list T) (this : NNDataSet) : NNDataSet :=
  {| _attributes := _attributes this;
     _bDirty := _bDirty this;
     _batch := _batch this;
     _pbData := _pbData this;
     _pbSparseData := l;
     _pbSparseStart := _pbSparseStart this;
     _pbSparseEnd := _pbSparseEnd this;
     _pbSparseIndex := _pbSparseIndex this;
     _pbDataWeight := _pbDataWeight this;
     _pbIndex := _pbIndex this;
     _pbDenoisingRandom := _pbDenoisingRandom this;
     _pbSparseTransposedStart := _pbSparseTransposedStart this;
     _pbSparseTransposedEnd := _pbSparseTransposedEnd this;
     _pbSparseTransposedIndex := _pbSparseTransposedIndex this;
     _pbSparseTransposedData := _pbSparseTransposedData this |}.



(** The kernel without denoising that corresponds to a denoising one. *)
Definition plain_transposition (k : Kernel) : Kernel :=
  match k with
  | kCalculateIndexedSparseTransposedDenoisedMatrix =>
      kCalculateIndexedSparseTransposedMatrix
  | kCalculateSparseTransposedDenoisedMatrix =>
      kCalculateSparseTransposedMatrix
  | kCalculateIndexedSparseTransposedAnalogDenoisedMatrix =>
      kCalculateIndexedSparseTransposedAnalogMatrix
  | kCalculateSparseTransposedAnalogDenoisedMatrix =>
      kCalculateSparseTransposedAnalogMatrix
  | k => k
  end.

Definition plain_layer (k : LayerKernel) : LayerKernel :=
  match k with
  | kLoadIndexedSparseDenoisedInputUnit => kLoadIndexedSparseInputUnit
  | kLoadSparseDenoisedInputUnit => kLoadSparseInputUnit
  | kLoadIndexedSparseAnalogDenoisedInputUnit => kLoadIndexedSparseAnalogInputUnit
  | kLoadSparseAnalogDenoisedInputUnit => kLoadSparseAnalogInputUnit
  | kCalculateIndexedSparseDenoisedZ => kCalculateIndexedSparseZ
  | kCalculateSparseDenoisedZ => kCalculateSparseZ
  | kCalculateIndexedSparseAnalogDenoisedZ => kCalculateIndexedSparseAnalogZ
  | kCalculateSparseAnalogDenoisedZ => kCalculateSparseAnalogZ
  | k => k
  end.

(** A log with its launches relieved of the pointers into [b] and of the
    denoising in the kernel's name. *)
Definition plain_event (b : GpuBuffer) (e : Event) : Event :=
  match e with
  | launch k args => launch (plain_transposition k) (without b args)
  | e => e
  end.

End Layer.

(** *** Vocabulary for the statements about call parameters *)


Section Parameters.
Context `{Types}.


(** An argument that is a call parameter rather than something of the
    dataset's: a count, a caller's address, an activation or a number. *)
Definition is_parameter (a : Arg) : bool :=
  match a with
  | u32 _ | ptr _ | act _ | flt _ => true
  | _ => false
  end.

End Parameters.

Section FurtherSample.
#[local] Existing Instance NNEnum_h.
#[local] Existing Instance sample_types.

(** The sample after a rebuild for batch 2: clean, sparse and boolean. *)
Definition rebuilt_sample : NNDataSet :=
  fst (sample_generate 2 0 (sample (Z.lor Sparse Boolean))).

End FurtherSample.

(** ** Buffers that may not be there

    A [GpuBuffer] member of the dataset is a [unique_ptr], empty until the
    buffer is allocated, and [_pbX->_pDevData] on an empty one is undefined
    behaviour.  The dispatchers above are written for a dataset that owns
    every buffer they dereference.  The two hinge members are given here
    once more, with every dereference explicit, for datasets that may not. *)

Section Ownership.
Context `{Attributes} `{Collaborators}.

(** A dataset and which of its buffers are allocated. *)
Record Owned : Type := {
  dataset : NNDataSet;
  allocated : GpuBuffer -> bool
}.

(** What a call comes to: a run, or undefined behaviour. *)
Inductive Outcome (A : Type) : Type :=
| completes (r : Run A)
| undefined_behaviour.
Arguments completes {A} r.
Arguments undefined_behaviour {A}.

(** [_pbX->_pDevData]: the device pointer, if the buffer is there. *)
Definition deref (this : Owned) (b : GpuBuffer) : option Arg :=
  if allocated this b then Some (dev b (_pDevData (dataset this) b)) else None.

Definition CalculateHingeError_on (position batch stride : Z) (pUnit : Ptr)
  (this : Owned) : Outcome NNFloat :=
  match (if test (_attributes (dataset this)) Weighted
         then deref this pbDataWeight else Some NULL) with
  | None => undefined_behaviour
  | Some pDataWeight =>
      if test (_attributes (dataset this)) Indexed then
        match deref this pbIndex, deref this pbData with
        | Some pIndex, Some pData =>
            completes
              (kernel kCalculateIndexedHingeError
                 [u32 position; u32 batch; u32 stride; ptr pUnit; pIndex; pData;
                  pDataWeight] (dataset this))
        | _, _ => undefined_behaviour
        end
      else
        match deref this pbData with
        | Some pData =>
            completes
              (kernel kCalculateHingeError
                 [u32 position; u32 batch; u32 stride; ptr pUnit; pData;
                  pDataWeight] (dataset this))
        | None => undefined_behaviour
        end
  end.

Definition CalculateHingeOutputDelta_on (activation : Activation)
  (position batch stride : Z) (pUnit pDelta : Ptr) (this : Owned) : Outcome bool :=
  match (if test (_attributes (dataset this)) Weighted
         then deref this pbDataWeight else Some NULL) with
  | None => undefined_behaviour
  | Some pDataWeight =>
      if test (_attributes (dataset this)) Indexed then
        match deref this pbIndex, deref this pbData with
        | Some pIndex, Some pData =>
            completes
              (bind
                 (kernel kCalculateIndexedHingeOutputDelta
                    [act activation; u32 position; u32 batch; u32 stride;
                     ptr pUnit; ptr pDelta; pIndex; pData; pDataWeight])
                 (fun _ => ret true) (dataset this))
        | _, _ => undefined_behaviour
        end
      else
        match deref this pbData with
        | Some pData =>
            completes
              (bind
                 (kernel kCalculateHingeOutputDelta
                    [act activation; u32 position; u32 batch; u32 stride;
                     ptr pUnit; ptr pDelta; pData; pDataWeight])
                 (fun _ => ret true) (dataset this))
        | None => undefined_behaviour
        end
  end.

End Ownership.

Arguments completes {_ A} r.
Arguments undefined_behaviour {_ A}.

Section SparseSample.
#[local] Existing Instance NNEnum_h.
#[local] Existing Instance sample_types.

(** The sample as a sparse dataset holds it: the attribute word is
    [Sparse], the sparse arrays, the index and the weights are allocated,
    the dense buffer is not. *)
Definition sparse_sample : Owned :=
  {| dataset :=
       {| _attributes := Sparse;
          _bDirty := true;
          _batch := 0;
          _pbData := [];
          _pbSparseData := [1; 1; 1];
          _pbSparseStart := [0; 1];
          _pbSparseEnd := [1; 3];
          _pbSparseIndex := [0; 1; 2];
          _pbDataWeight := [5; 7];
          _pbIndex := [0; 1];
          _pbDenoisingRandom := [];
          _pbSparseTransposedStart := [];
          _pbSparseTransposedEnd := [];
          _pbSparseTransposedIndex := [];
          _pbSparseTransposedData := [] |};
     allocated := fun b =>
       match b with
       | pbSparseData | pbSparseStart | pbSparseEnd | pbSparseIndex
       | pbDataWeight | pbIndex => true
       | _ => false
       end |}.

End SparseSample.

(** * Properties *)

(** ** Descriptor validation *)

Section DescriptorProperties.
Context {enum : Attributes} {types : Types}.
Import NNDataSetDescriptor.

Lemma strip_zero_mask (attributes : Z) : strip attributes 0 = attributes.
Proof.
  unfold strip, test. now rewrite Z.land_0_r.
Qed.

Lemma fold_strip_zero_masks (n : nat) (attributes : Z) :
  fold_left strip (repeat 0 n) attributes = attributes.
Proof.
  induction n as [|n IH]; simpl.
  - reflexivity.
  - now rewrite strip_zero_mask.
Qed.

Lemma isSupported_eqb (attributes : Z) :
  isSupported attributes = (attributes =? 0).
Proof.
  unfold isSupported, SUPPORTED_ATTRIBUTES.
  now rewrite fold_strip_zero_masks.
Qed.

(** C2: [isSupported attributes] holds exactly when [attributes] is zero.
    The masks the loop runs over are all zero, whatever the value of
    [Sparse], so no bit is ever stripped and every non-empty attribute
    word, the one holding only the [Sparse] bit included, is rejected. *)
Theorem isSupported_iff_zero (attributes : Z) :
  isSupported attributes = true <-> attributes = 0.
Proof.
  rewrite isSupported_eqb. apply Z.eqb_eq.
Qed.

(** C1, as amended: [createNNDataSet] fails, returning no object, whenever
    the attributes hold a bit other than [Sparse] (so [Indexed] and
    [Weighted] are rejected, alone or combined), and the descriptor with no
    attribute bit is accepted. *)
Theorem createNNDataSet_rejects_beyond_Sparse (descriptor : t) :
  (within_Sparse (_attributes descriptor) = false ->
   createNNDataSet descriptor = None) /\
  (_attributes descriptor = 0 ->
   createNNDataSet descriptor = Some descriptor).
Proof.
  unfold createNNDataSet, within_Sparse.
  rewrite isSupported_eqb. split; intros E.
  - destruct (Z.eqb_spec (_attributes descriptor) 0) as [Z0|]; [|reflexivity].
    rewrite Z0, Z.land_0_l in E. discriminate E.
  - now rewrite E.
Qed.

End DescriptorProperties.

(** ** Dispatch *)

Section DispatchProperties.
Context {enum : Attributes} {types : Types} {library : Collaborators}.

Notation "this &? mask" := (test (_attributes this) mask) (at level 40).
Notation "this ~> b" := (dev b (_pDevData this b)) (at level 30).

Ltac unfold_members :=
  unfold CalculateL1Error, CalculateL2Error, CalculateL2HingeError,
    CalculateCrossEntropyError, CalculateScaledMarginalCrossEntropyError,
    CalculateMultinomialCrossEntropyError,
    CalculateMultinomialScaledMarginalCrossEntropyError,
    CalculateDataScaledMarginalCrossEntropyError, CalculateHingeError,
    CalculateL1OutputDelta, CalculateCrossEntropyOutputDelta,
    CalculateScaledMarginalCrossEntropyOutputDelta, CalculateOutputDelta,
    CalculateL2HingeOutputDelta,
    CalculateDataScaledMarginalCrossEntropyOutputDelta,
    CalculateHingeOutputDelta, bind, kernel, ret, emit, exit_ in *.

(** Reading a launch list [[(k, l)]] off the goal and splitting [l] before
    its last [n] arguments. *)
Ltac split_args n :=
  lazymatch goal with
  | |- exists k pre, [(?K, ?L)] = [(k, pre ++ _)] /\ _ =>
      exists K, (firstn (List.length L - n) L); repeat split
  end.

(** C4: on a dataset without the [Sparse] attribute both data-scaled
    members report the mismatch on the console, shut the device down and
    terminate the process with status -1; no kernel is launched, no value is
    returned and the dataset is left as it was. *)
Theorem DataScaledMarginalCrossEntropy_dense_is_fatal
    (activation : Activation) (position batch stride : Z) (pUnit pDelta : Ptr)
    (this : NNDataSet) :
  this &? Sparse = false ->
  CalculateDataScaledMarginalCrossEntropyError position batch stride pUnit this
    = {| log := fatal; final := this; value := None |} /\
  CalculateDataScaledMarginalCrossEntropyOutputDelta
      activation position batch stride pUnit pDelta this
    = {| log := fatal; final := this; value := None |} /\
  launches fatal = [].
Proof.
  intros Dense. unfold_members. rewrite Dense. repeat split.
Qed.

(** C9: on a dataset with both the [Sparse] and the [Boolean] attribute the
    data-scaled error runs exactly as the scaled-marginal error does: same
    kernel, same arguments, hence same log, same returned value and same
    dataset afterwards. *)
Theorem DataScaled_is_Scaled_on_sparse_boolean
    (position batch stride : Z) (pUnit : Ptr) (this : NNDataSet) :
  this &? Sparse = true ->
  this &? Boolean = true ->
  CalculateDataScaledMarginalCrossEntropyError position batch stride pUnit this
    = CalculateScaledMarginalCrossEntropyError position batch stride pUnit this.
Proof.
  intros IsSparse IsBoolean. unfold_members.
  rewrite IsSparse, IsBoolean. reflexivity.
Qed.


(** C5: the hinge members do not reject a sparse dataset.  Neither tests
    the [Sparse] attribute: each dereferences the dense data buffer
    unconditionally.  On a dataset that has no dense buffer, as a sparse one
    has none, the call is undefined behaviour; and whatever the attribute
    word, a call is either that or one launch of the hinge kernel on the
    dense buffer followed by a return, exactly as for a dense dataset.  No
    call reports anything or terminates the process. *)
Theorem Hinge_never_rejects
    (activation : Activation) (position batch stride : Z) (pUnit pDelta : Ptr)
    (this : Owned) :
  let error := CalculateHingeError_on position batch stride pUnit this in
  let delta :=
    CalculateHingeOutputDelta_on activation position batch stride pUnit pDelta this in
  (allocated this pbData = false ->
   error = undefined_behaviour /\ delta = undefined_behaviour) /\
  (error = undefined_behaviour \/
   error = completes (CalculateHingeError position batch stride pUnit (dataset this)) /\
   exists k args x,
     log (CalculateHingeError position batch stride pUnit (dataset this))
       = [launch k args] /\
     value (CalculateHingeError position batch stride pUnit (dataset this)) = Some x /\
     uses pbData args = true) /\
  (delta = undefined_behaviour \/
   delta = completes (CalculateHingeOutputDelta activation position batch stride
                        pUnit pDelta (dataset this)) /\
   exists k args,
     log (CalculateHingeOutputDelta activation position batch stride pUnit pDelta
            (dataset this))
       = [launch k args] /\
     value (CalculateHingeOutputDelta activation position batch stride pUnit pDelta
              (dataset this)) = Some true /\
     uses pbData args = true).
Proof.
  intros error delta. subst error delta.
  unfold CalculateHingeError_on, CalculateHingeOutputDelta_on, deref.
  unfold_members.
  destruct (test (_attributes (dataset this)) Weighted),
    (test (_attributes (dataset this)) Indexed),
    (allocated this pbDataWeight), (allocated this pbIndex),
    (allocated this pbData);
    (split; [intros Absent; try discriminate Absent; split; reflexivity|]);
    split;
    first [ left; reflexivity
          | right; split; [reflexivity | cbn; repeat eexists] ].
Qed.

(** C6: both transposition members rebuild the start offsets, by calling
    [GenerateSparseTransposedMatrix], exactly when the dirty flag is set or
    the requested batch is not the recorded one; after that, on every call,
    the end offsets are overwritten with the start offsets and then exactly
    one kernel, one of those appending to the transposed structure, is
    launched; it receives the end offsets so reset. *)
Theorem transposition_rebuilds_then_resets
    (position batch : Z) (pLayer : Ptr) (this : NNDataSet) :
  let stale := _bDirty this || negb (batch =? _batch this) in
  let rebuilt :=
    if stale then fst (GenerateSparseTransposedMatrix_does batch pLayer this) else this in
  let start := dev_uint (_pbSparseTransposedStart rebuilt) in
  (stale = true <-> _bDirty this = true \/ batch <> _batch this) /\
  Forall
    (fun member =>
       exists k args,
         log (member position batch pLayer this)
           = (if stale then [generate batch pLayer] else []) ++
             [copy pbSparseTransposedEnd (dev pbSparseTransposedStart start);
              launch k args] /\
         In k transposition_kernels /\
         In (dev pbSparseTransposedEnd start) args /\
         value (member position batch pLayer this) = Some true)
    [CalculateSparseTransposedMatrix; CalculateSparseTransposedDenoisedMatrix].
Proof.
  intros stale rebuilt start. subst start rebuilt stale. split.
  - rewrite orb_true_iff, negb_true_iff, Z.eqb_neq. reflexivity.
  - repeat constructor;
      unfold CalculateSparseTransposedMatrix, CalculateSparseTransposedDenoisedMatrix,
        GenerateSparseTransposedMatrix, Copy_pbSparseTransposedEnd;
      unfold_members;
      destruct (_bDirty this || negb (batch =? _batch this)); cbn;
      match goal with
      | |- context [test (_attributes ?a) Boolean] =>
          destruct (test (_attributes a) Boolean), (test (_attributes a) Indexed)
      end; cbn; do 2 eexists; (repeat split; try reflexivity); cbn; tauto.
Qed.


(** C8: each output-delta member that receives [slope], [alpha] and
    [lambda] launches, on every attribute word, one kernel whose last three
    arguments are those very values in that order; no other argument of the
    launch is a number. *)
Theorem output_delta_forwards_slope_alpha_lambda
    (activation : Activation) (position batch stride : Z) (pUnit pDelta : Ptr)
    (slope alpha lambda : NNFloat) (this : NNDataSet) :
  Forall
    (fun member =>
       exists k pre,
         launches
           (log (member activation position batch stride pUnit pDelta
                   slope alpha lambda this))
           = [(k, pre ++ [flt slope; flt alpha; flt lambda])] /\
         filter is_flt pre = [])
    [CalculateL1OutputDelta; CalculateOutputDelta; CalculateL2HingeOutputDelta].
Proof.
  repeat constructor; unfold_members;
    generalize (this &? Sparse), (this &? Boolean), (this &? Indexed),
      (this &? Weighted);
    intros [] [] [] []; cbn; split_args 3%nat.
Qed.

(** C10: on a sparse analog dataset the data-scaled members do not depend
    on the per-example weights.  Replacing the weight array by any other,
    with [Weighted] set or not, leaves the log (the kernel launched and
    every argument it receives) and the returned value of both the error
    and the output-delta member unchanged, and the error member does return
    a value. *)
Theorem DataScaled_ignores_dataWeight
    (activation : Activation) (position batch stride : Z) (pUnit pDelta : Ptr)
    (weights : list NNFloat) (this : NNDataSet) :
  this &? Sparse = true ->
  this &? Boolean = false ->
  let other := set_pbDataWeight weights this in
  let error := CalculateDataScaledMarginalCrossEntropyError position batch stride pUnit in
  let delta :=
    CalculateDataScaledMarginalCrossEntropyOutputDelta
      activation position batch stride pUnit pDelta in
  log (error other) = log (error this) /\
  value (error other) = value (error this) /\
  log (delta other) = log (delta this) /\
  value (delta other) = value (delta this) /\
  (exists x, value (error this) = Some x) /\
  value (delta this) = Some true.
Proof.
  intros IsSparse IsAnalog other error delta. subst other error delta.
  unfold_members.
  cbn [set_pbDataWeight _attributes _pDevData _pbIndex _pbSparseStart
       _pbSparseEnd _pbSparseIndex _pbSparseData].
  rewrite IsSparse, IsAnalog.
  destruct (this &? Indexed); cbn; repeat split; eexists; reflexivity.
Qed.

End DispatchProperties.

(** * Concrete runs

    The theorems above applied to, and the model evaluated on, the sample
    dataset under the concrete attribute masks. *)

Section SampleRuns.
#[local] Existing Instance NNEnum_h.
#[local] Existing Instance sample_types.
#[local] Existing Instance sample_collaborators.

(** Under single-bit masks the descriptor of a plain sparse dataset is
    turned down as well. *)
Example isSupported_rejects_Sparse :
  NNDataSetDescriptor.isSupported Sparse = false /\ NNDataSetDescriptor.createNNDataSet (sample_descriptor Sparse) = None.
Proof.
  split; reflexivity.
Qed.

(** C1 fails as stated: the attribute word [Indexed | Weighted] holds no bit
    outside [Sparse], [Indexed] and [Weighted], and yet no object is
    created for it. *)
Lemma createNNDataSet_rejects_Indexed_Weighted :
  NNDataSetDescriptor.within_Sparse_Indexed_Weighted (Z.lor Indexed Weighted) = true /\
  NNDataSetDescriptor.createNNDataSet (sample_descriptor (Z.lor Indexed Weighted)) = None.
Proof.
  split; reflexivity.
Qed.

(** An indexed descriptor is turned down, the dense one is accepted. *)
Lemma createNNDataSet_rejects_beyond_Sparse_witness :
  (NNDataSetDescriptor.within_Sparse Indexed = false /\
   NNDataSetDescriptor.createNNDataSet (sample_descriptor Indexed) = None) /\
  NNDataSetDescriptor.createNNDataSet (sample_descriptor 0) = Some (sample_descriptor 0).
Proof.
  split; [split|].
  - reflexivity.
  - apply (proj1 (createNNDataSet_rejects_beyond_Sparse (types := sample_types) (sample_descriptor Indexed))).
    reflexivity.
  - apply (proj2 (createNNDataSet_rejects_beyond_Sparse (types := sample_types) (sample_descriptor 0))).
    reflexivity.
Defined.



(** The data-scaled members on a dense indexed sample. *)
Lemma DataScaledMarginalCrossEntropy_dense_is_fatal_witness :
  test (_attributes (sample Indexed)) Sparse = false /\
  CalculateDataScaledMarginalCrossEntropyError 0 2 3 4096 (sample Indexed)
    = {| log := fatal; final := sample Indexed; value := None |} /\
  CalculateDataScaledMarginalCrossEntropyOutputDelta Sigmoid 0 2 3 4096 8192 (sample Indexed)
    = {| log := fatal; final := sample Indexed; value := None |}.
Proof.
  split; [reflexivity|].
  split;
    apply (DataScaledMarginalCrossEntropy_dense_is_fatal (types := sample_types)
             Sigmoid 0 2 3 4096 8192 (sample Indexed)); reflexivity.
Defined.

(** The hinge members on the sparse sample, which has no dense buffer. *)
Lemma Hinge_never_rejects_witness :
  test (_attributes (dataset sparse_sample)) Sparse = true /\
  allocated sparse_sample pbData = false /\
  CalculateHingeError_on 0 2 3 4096 sparse_sample = undefined_behaviour /\
  CalculateHingeOutputDelta_on Sigmoid 0 2 3 4096 8192 sparse_sample
    = undefined_behaviour.
Proof.
  split; [reflexivity|]. split; [reflexivity|].
  exact (proj1 (Hinge_never_rejects (types := sample_types)
                  Sigmoid 0 2 3 4096 8192 sparse_sample) eq_refl).
Defined.


(** Both members on a sparse, boolean, weighted sample. *)
Lemma DataScaled_is_Scaled_on_sparse_boolean_witness :
  CalculateDataScaledMarginalCrossEntropyError 0 2 3 4096
      (sample (Z.lor Sparse (Z.lor Boolean Weighted)))
    = CalculateScaledMarginalCrossEntropyError 0 2 3 4096
        (sample (Z.lor Sparse (Z.lor Boolean Weighted))).
Proof.
  apply (DataScaled_is_Scaled_on_sparse_boolean (types := sample_types) 0 2 3 4096
           (sample (Z.lor Sparse (Z.lor Boolean Weighted)))); reflexivity.
Defined.

(** The data-scaled error on a sparse, analog, weighted sample under two
    weight arrays. *)
Lemma DataScaled_ignores_dataWeight_witness :
  log (CalculateDataScaledMarginalCrossEntropyError 0 2 3 4096
         (set_pbDataWeight [9; 9] (sample (Z.lor Sparse Weighted))))
    = log (CalculateDataScaledMarginalCrossEntropyError 0 2 3 4096
             (sample (Z.lor Sparse Weighted))) /\
  value (CalculateDataScaledMarginalCrossEntropyError 0 2 3 4096
           (set_pbDataWeight [9; 9] (sample (Z.lor Sparse Weighted))))
    = value (CalculateDataScaledMarginalCrossEntropyError 0 2 3 4096
               (sample (Z.lor Sparse Weighted))).
Proof.
  pose proof
    (DataScaled_ignores_dataWeight (types := sample_types) Sigmoid 0 2 3 4096 8192 [9; 9]
       (sample (Z.lor Sparse Weighted)) eq_refl eq_refl) as Same.
  split; apply Same.
Defined.

End SampleRuns.

(** * Further properties of the dispatchers *)

Section FurtherProperties.
Context {enum : Attributes} {types : Types} {library : Collaborators}.

Notation "this &? mask" := (test (_attributes this) mask) (at level 40).
Notation "this ~> b" := (dev b (_pDevData this b)) (at level 30).

Ltac unfold_dispatchers :=
  unfold trace, CalculateL1Error, CalculateL2Error, CalculateL2HingeError,
    CalculateCrossEntropyError, CalculateScaledMarginalCrossEntropyError,
    CalculateMultinomialCrossEntropyError,
    CalculateMultinomialScaledMarginalCrossEntropyError,
    CalculateDataScaledMarginalCrossEntropyError, CalculateHingeError,
    CalculateL1OutputDelta, CalculateCrossEntropyOutputDelta,
    CalculateScaledMarginalCrossEntropyOutputDelta, CalculateOutputDelta,
    CalculateL2HingeOutputDelta,
    CalculateDataScaledMarginalCrossEntropyOutputDelta,
    CalculateHingeOutputDelta, bind, kernel, ret, emit, exit_.

Ltac unfold_layer :=
  unfold LoadInputUnit, LoadSparseInputUnit, LoadSparseDenoisedInputUnit,
    CalculateSparseZ, CalculateSparseDenoisedZ,
    CalculateSparseTransposedWeightGradient, weight_of.

(** Case analysis on every attribute test of [this] left in the goal. *)
Ltac by_tests this :=
  generalize (this &? Sparse), (this &? Boolean), (this &? Indexed),
    (this &? Weighted), (this &? SparseIgnoreZero);
  intros [] [] [] [] [].

(** X1: on a dataset without the [Sparse] attribute, every error and
    output-delta member other than the two data-scaled ones consults the
    [Indexed] and [Weighted] tests only: [Boolean] and [SparseIgnoreZero]
    change nothing.  Its one launch is handed the dense data buffer, none of
    the sparse buffers and no flag. *)
Theorem dense_members_consult_Indexed_and_Weighted
    (d : Dispatcher) (c : Call) (attributes : Z) (this : NNDataSet) :
  data_scaled d = false ->
  this &? Sparse = false ->
  test attributes Sparse = false ->
  test attributes Indexed = this &? Indexed ->
  test attributes Weighted = this &? Weighted ->
  trace d c (set_attributes attributes this) = trace d c this /\
  exists k args,
    trace d c this = [launch k args] /\
    uses pbData args = true /\
    Forall (fun b => uses b args = false)
      [pbSparseStart; pbSparseEnd; pbSparseIndex; pbSparseData] /\
    filter is_flag args = [].
Proof.
  intros Total Dense StaysDense SameIndexed SameWeighted.
  destruct d; try discriminate Total; unfold_dispatchers;
    cbn [set_attributes _attributes];
    rewrite ?Dense, ?StaysDense, SameIndexed, SameWeighted;
    by_tests this; cbn;
    (split; [reflexivity | do 2 eexists; split; [reflexivity|]]);
    repeat constructor.
Qed.



(** X4: a dataset with the [Boolean] attribute never has its sparse value
    buffer handed to a kernel by an error or output-delta member, with one
    exception, the data-scaled output delta, nor by the input and
    sparse-product members. *)
Theorem Boolean_values_are_not_read
    (d : Dispatcher) (c : Call) (pWeight : Ptr) (beta : NNFloat)
    (this : NNDataSet) :
  this &? Boolean = true ->
  (d = DataScaledMarginalCrossEntropyOutputDelta -> False) ->
  Forall (fun ka => uses pbSparseData (snd ka) = false) (launches (trace d c this)) /\
  Forall
    (fun member =>
       uses pbSparseData
         (actuals (fst (member (c_position c) (c_batch c) (c_stride c) (c_pUnit c) this)))
       = false)
    [LoadInputUnit; LoadSparseInputUnit; LoadSparseDenoisedInputUnit] /\
  Forall
    (fun member =>
       uses pbSparseData
         (actuals (fst (member (c_position c) (c_batch c) (c_stride c) pWeight
                          (c_pUnit c) beta this)))
       = false)
    [CalculateSparseZ; CalculateSparseDenoisedZ].
Proof.
  intros IsBoolean Other. split; [|split].
  - destruct d; try (exfalso; apply Other; reflexivity);
      unfold_dispatchers; rewrite ?IsBoolean; by_tests this; cbn;
      repeat constructor.
  - repeat constructor; unfold_layer; rewrite ?IsBoolean;
      by_tests this; reflexivity.
  - repeat constructor; unfold_layer; rewrite ?IsBoolean;
      by_tests this; reflexivity.
Qed.


(** X6: the cross-entropy and scaled-marginal-cross-entropy members, error
    and output delta, and the L1 output delta never consult [Boolean] and
    never read the sparse values: replacing the value buffer and changing
    the attribute word without changing its [Sparse], [Indexed], [Weighted]
    and [SparseIgnoreZero] tests leaves the whole log unchanged. *)
Theorem cross_entropy_and_L1_delta_ignore_values
    (c : Call) (attributes : Z) (values : list T) (this : NNDataSet) :
  test attributes Sparse = this &? Sparse ->
  test attributes Indexed = this &? Indexed ->
  test attributes Weighted = this &? Weighted ->
  test attributes SparseIgnoreZero = this &? SparseIgnoreZero ->
  Forall
    (fun d =>
       trace d c (set_attributes attributes (set_pbSparseData values this))
       = trace d c this)
    [CrossEntropyError; ScaledMarginalCrossEntropyError; L1OutputDelta;
     CrossEntropyOutputDelta; ScaledMarginalCrossEntropyOutputDelta].
Proof.
  intros SameSparse SameIndexed SameWeighted SameFlag.
  repeat constructor; unfold_dispatchers;
    cbn [set_attributes set_pbSparseData _attributes];
    rewrite SameSparse, SameIndexed, SameWeighted, ?SameFlag;
    by_tests this; reflexivity.
Qed.

(** X7: the multinomial error members never consult [SparseIgnoreZero]:
    they hand no flag to their kernel, and the log is the same for every
    attribute word with the same [Sparse], [Boolean], [Indexed] and
    [Weighted] tests. *)
Theorem multinomial_errors_ignore_SparseIgnoreZero
    (c : Call) (attributes : Z) (this : NNDataSet) :
  test attributes Sparse = this &? Sparse ->
  test attributes Boolean = this &? Boolean ->
  test attributes Indexed = this &? Indexed ->
  test attributes Weighted = this &? Weighted ->
  Forall
    (fun d =>
       trace d c (set_attributes attributes this) = trace d c this /\
       exists k args, trace d c this = [launch k args] /\ filter is_flag args = [])
    [MultinomialCrossEntropyError; MultinomialScaledMarginalCrossEntropyError].
Proof.
  intros SameSparse SameBoolean SameIndexed SameWeighted.
  repeat constructor; unfold_dispatchers;
    cbn [set_attributes _attributes];
    rewrite ?SameSparse, ?SameBoolean, ?SameIndexed, ?SameWeighted;
    by_tests this; cbn; try reflexivity; do 2 eexists; split; reflexivity.
Qed.




(** X11: each denoising member does what its plain counterpart does, plus
    the denoising buffer.  Taking the pointer into the denoising random
    buffer out of the arguments of the denoising launch, and the denoising
    out of the kernel's name, gives the plain member's launch; for the
    transposition members the rest of the log (rebuild and reset) and the
    returned value agree as well.  The plain members are never handed the
    denoising buffer. *)
Theorem denoising_adds_one_buffer
    (position batch stride : Z) (pWeight pUnit pLayer : Ptr) (beta : NNFloat)
    (this : NNDataSet) :
  let relates (plain denoised : Launch * bool) :=
    entry (fst plain) = plain_layer (entry (fst denoised)) /\
    actuals (fst plain) = without pbDenoisingRandom (actuals (fst denoised)) /\
    uses pbDenoisingRandom (actuals (fst denoised)) = true /\
    uses pbDenoisingRandom (actuals (fst plain)) = false /\
    snd plain = snd denoised in
  relates (LoadSparseInputUnit position batch stride pUnit this)
          (LoadSparseDenoisedInputUnit position batch stride pUnit this) /\
  relates (CalculateSparseZ position batch stride pWeight pUnit beta this)
          (CalculateSparseDenoisedZ position batch stride pWeight pUnit beta this) /\
  log (CalculateSparseTransposedMatrix position batch pLayer this)
    = map (plain_event pbDenoisingRandom)
        (log (CalculateSparseTransposedDenoisedMatrix position batch pLayer this)) /\
  value (CalculateSparseTransposedMatrix position batch pLayer this)
    = value (CalculateSparseTransposedDenoisedMatrix position batch pLayer this) /\
  Forall (fun ka => uses pbDenoisingRandom (snd ka) = true)
    (launches (log (CalculateSparseTransposedDenoisedMatrix position batch pLayer this))).
Proof.
  intros relates. subst relates.
  split; [|split; [|split; [|split]]].
  - unfold_layer; by_tests this; repeat split.
  - unfold_layer; by_tests this; repeat split.
  - unfold CalculateSparseTransposedMatrix, CalculateSparseTransposedDenoisedMatrix,
      GenerateSparseTransposedMatrix, Copy_pbSparseTransposedEnd;
      unfold_dispatchers;
      destruct (_bDirty this || negb (batch =? _batch this)); cbn;
      match goal with
      | |- context [test (_attributes ?a) Boolean] =>
          generalize (test (_attributes a) Boolean), (test (_attributes a) Indexed),
            (test (_attributes a) Weighted)
      end; intros [] [] []; reflexivity.
  - unfold CalculateSparseTransposedMatrix, CalculateSparseTransposedDenoisedMatrix,
      GenerateSparseTransposedMatrix, Copy_pbSparseTransposedEnd;
      unfold_dispatchers;
      destruct (_bDirty this || negb (batch =? _batch this)); cbn;
      match goal with
      | |- context [test (_attributes ?a) Boolean] =>
          generalize (test (_attributes a) Boolean), (test (_attributes a) Indexed),
            (test (_attributes a) Weighted)
      end; intros [] [] []; reflexivity.
  - unfold CalculateSparseTransposedMatrix, CalculateSparseTransposedDenoisedMatrix,
      GenerateSparseTransposedMatrix, Copy_pbSparseTransposedEnd;
      unfold_dispatchers;
      destruct (_bDirty this || negb (batch =? _batch this)); cbn;
      match goal with
      | |- context [test (_attributes ?a) Boolean] =>
          generalize (test (_attributes a) Boolean), (test (_attributes a) Indexed),
            (test (_attributes a) Weighted)
      end; intros [] [] []; repeat constructor.
Qed.

(** X12: the weight-gradient member and the transposition members agree on
    the transposed value buffer.  Transposition hands that buffer to its
    kernel, rather than null, exactly when [Weighted] is set or [Boolean]
    is not, and exactly then the weight gradient launches the analog
    kernel, which reads it; otherwise the gradient kernel is not handed
    it.  The gradient always reads the transposed start, end and index. *)
Theorem weight_gradient_reads_what_transposition_fills
    (position batch m n : Z) (pLayer pDelta pWeightGradient : Ptr)
    (alpha beta : NNFloat) (this after : NNDataSet) :
  let stale := _bDirty this || negb (batch =? _batch this) in
  let rebuilt :=
    if stale then fst (GenerateSparseTransposedMatrix_does batch pLayer this) else this in
  _attributes after = _attributes rebuilt ->
  let gradient :=
    CalculateSparseTransposedWeightGradient alpha beta m n pDelta pWeightGradient after in
  let filled := (rebuilt &? Weighted) || negb (rebuilt &? Boolean) in
  snd gradient = true /\
  entry (fst gradient)
    = (if filled then kCalculateSparseTransposedAnalogWeightGradient
       else kCalculateSparseTransposedWeightGradient) /\
  uses pbSparseTransposedData (actuals (fst gradient)) = filled /\
  Forall (fun b => uses b (actuals (fst gradient)) = true)
    [pbSparseTransposedStart; pbSparseTransposedEnd; pbSparseTransposedIndex] /\
  Forall
    (fun member =>
       exists k args,
         launches (log (member position batch pLayer this)) = [(k, args)] /\
         uses pbSparseTransposedData args = filled)
    [CalculateSparseTransposedMatrix; CalculateSparseTransposedDenoisedMatrix].
Proof.
  intros stale rebuilt SameAttributes gradient filled.
  subst gradient filled. unfold_layer. rewrite SameAttributes.
  split; [reflexivity|].
  split; [destruct (rebuilt &? Boolean), (rebuilt &? Weighted); reflexivity|].
  split; [destruct (rebuilt &? Boolean), (rebuilt &? Weighted); reflexivity|].
  split; [destruct (rebuilt &? Boolean), (rebuilt &? Weighted); repeat constructor|].
  subst rebuilt stale.
  repeat constructor;
    unfold CalculateSparseTransposedMatrix, CalculateSparseTransposedDenoisedMatrix,
      GenerateSparseTransposedMatrix, Copy_pbSparseTransposedEnd;
    unfold_dispatchers;
    destruct (_bDirty this || negb (batch =? _batch this)); cbn;
    match goal with
    | |- context [test (_attributes ?a) Boolean] =>
        generalize (test (_attributes a) Boolean), (test (_attributes a) Indexed),
          (test (_attributes a) Weighted)
    end; intros [] [] []; cbn; do 2 eexists; split; reflexivity.
Qed.

(** What a transposition member leaves behind, in terms of the two fields
    that guard the rebuild. *)
Lemma transposition_records_the_batch
    (position batch : Z) (pLayer : Ptr) (this : NNDataSet) :
  (forall b p ds,
     _bDirty (fst (GenerateSparseTransposedMatrix_does b p ds)) = false /\
     _batch (fst (GenerateSparseTransposedMatrix_does b p ds)) = b) ->
  (forall k args ds,
     _bDirty (kernel_writes k args ds) = _bDirty ds /\
     _batch (kernel_writes k args ds) = _batch ds) ->
  Forall
    (fun member =>
       _bDirty (final (member position batch pLayer this)) = false /\
       _batch (final (member position batch pLayer this)) = batch)
    [CalculateSparseTransposedMatrix; CalculateSparseTransposedDenoisedMatrix].
Proof.
  intros Rebuild Kernels.
  repeat (first [apply Forall_nil | apply Forall_cons]);
    unfold CalculateSparseTransposedMatrix, CalculateSparseTransposedDenoisedMatrix,
      GenerateSparseTransposedMatrix, Copy_pbSparseTransposedEnd;
    unfold_dispatchers;
    destruct (_bDirty this || negb (batch =? _batch this)) eqn:Stale; cbn;
    match goal with
    | |- context [test (_attributes ?a) Boolean] =>
        destruct (test (_attributes a) Boolean), (test (_attributes a) Indexed)
    end; cbn;
    match goal with
    | |- context [kernel_writes ?k ?args ?ds] =>
        destruct (Kernels k args ds) as [-> ->]
    end; cbn;
    try apply Rebuild;
    apply orb_false_iff in Stale; destruct Stale as [Clean Same];
    apply negb_false_iff, Z.eqb_eq in Same; auto.
Qed.

(** A transposition member called on a dataset that is clean and was built
    for the requested batch goes straight to the reset and the launch. *)
Lemma transposition_skips_the_rebuild
    (position batch : Z) (pLayer : Ptr) (this : NNDataSet) :
  _bDirty this = false ->
  _batch this = batch ->
  Forall
    (fun member =>
       exists k args,
         log (member position batch pLayer this)
           = [copy pbSparseTransposedEnd
                (dev pbSparseTransposedStart
                   (dev_uint (_pbSparseTransposedStart this)));
              launch k args])
    [CalculateSparseTransposedMatrix; CalculateSparseTransposedDenoisedMatrix].
Proof.
  intros Clean Same.
  repeat (first [apply Forall_nil | apply Forall_cons]);
    unfold CalculateSparseTransposedMatrix, CalculateSparseTransposedDenoisedMatrix,
      GenerateSparseTransposedMatrix, Copy_pbSparseTransposedEnd;
    unfold_dispatchers;
    rewrite Clean, Same, Z.eqb_refl; cbn;
    generalize (this &? Boolean), (this &? Indexed); intros [] []; cbn;
    do 2 eexists; reflexivity.
Qed.

(** X13: the transposed structure is rebuilt at most once per batch size.
    Provided [GenerateSparseTransposedMatrix] clears the dirty flag and
    records the batch it was given, and the kernels leave those two fields
    alone, any transposition member called after any transposition member
    with the same batch does not rebuild: its log is the reset of the end
    offsets followed by the one launch. *)
Theorem transposition_rebuilds_once_per_batch
    (position position' batch : Z) (pLayer pLayer' : Ptr) (this : NNDataSet) :
  (forall b p ds,
     _bDirty (fst (GenerateSparseTransposedMatrix_does b p ds)) = false /\
     _batch (fst (GenerateSparseTransposedMatrix_does b p ds)) = b) ->
  (forall k args ds,
     _bDirty (kernel_writes k args ds) = _bDirty ds /\
     _batch (kernel_writes k args ds) = _batch ds) ->
  Forall
    (fun first =>
       Forall
         (fun second =>
            exists k args,
              log (second position' batch pLayer'
                     (final (first position batch pLayer this)))
                = [copy pbSparseTransposedEnd
                     (dev pbSparseTransposedStart
                        (dev_uint
                           (_pbSparseTransposedStart
                              (final (first position batch pLayer this)))));
                   launch k args])
         [CalculateSparseTransposedMatrix; CalculateSparseTransposedDenoisedMatrix])
    [CalculateSparseTransposedMatrix; CalculateSparseTransposedDenoisedMatrix].
Proof.
  intros Rebuild Kernels.
  pose proof (transposition_records_the_batch position batch pLayer this
                Rebuild Kernels) as Recorded.
  inversion Recorded as [|? ? [Clean Same] Rest]; subst.
  inversion Rest as [|? ? [Clean' Same'] _]; subst.
  constructor; [|constructor; [|constructor]].
  - exact (transposition_skips_the_rebuild position' batch pLayer' _ Clean Same).
  - exact (transposition_skips_the_rebuild position' batch pLayer' _ Clean' Same').
Qed.



(** X18: the input, sparse-product and weight-gradient members forward
    their parameters likewise.  The input members hand over position,
    batch, stride and the unit pointer first and no other parameter; the
    sparse products hand over position, batch, stride and the weight
    pointer first and the unit pointer and [beta] last; the weight gradient
    hands over [alpha], [beta], [m] and [n] first and the delta and
    gradient pointers last; nothing in between is a call parameter. *)
Theorem layer_members_forward_their_parameters
    (position batch stride m n : Z) (pWeight pUnit pDelta pWeightGradient : Ptr)
    (alpha beta : NNFloat) (this : NNDataSet) :
  Forall
    (fun member =>
       exists rest,
         actuals (fst (member position batch stride pUnit this))
           = [u32 position; u32 batch; u32 stride; ptr pUnit] ++ rest /\
         filter is_parameter rest = [])
    [LoadInputUnit; LoadSparseInputUnit; LoadSparseDenoisedInputUnit] /\
  Forall
    (fun member =>
       exists middle,
         actuals (fst (member position batch stride pWeight pUnit beta this))
           = [u32 position; u32 batch; u32 stride; ptr pWeight] ++ middle
             ++ [ptr pUnit; flt beta] /\
         filter is_parameter middle = [])
    [CalculateSparseZ; CalculateSparseDenoisedZ] /\
  exists middle,
    actuals (fst (CalculateSparseTransposedWeightGradient
                    alpha beta m n pDelta pWeightGradient this))
      = [flt alpha; flt beta; u32 m; u32 n] ++ middle
        ++ [ptr pDelta; ptr pWeightGradient] /\
    filter is_parameter middle = [].
Proof.
  split; [|split].
  - repeat (first [apply Forall_nil | apply Forall_cons]);
      unfold_layer; by_tests this; cbn;
      lazymatch goal with
      | |- exists rest, ?L = _ /\ _ =>
          exists (skipn 4 L); split; reflexivity
      end.
  - repeat (first [apply Forall_nil | apply Forall_cons]);
      unfold_layer; by_tests this; cbn;
      lazymatch goal with
      | |- exists middle, ?L = _ /\ _ =>
          exists (firstn (List.length L - 6) (skipn 4 L)); split; reflexivity
      end.
  - unfold_layer; by_tests this; cbn;
      lazymatch goal with
      | |- exists middle, ?L = _ /\ _ =>
          exists (firstn (List.length L - 6) (skipn 4 L)); split; reflexivity
      end.
Qed.

End FurtherProperties.

(** ** The loop body of [isSupported] *)

From Stdlib Require Import Lia.

Section StripProperties.
Context {enum : Attributes}.
Import NNDataSetDescriptor.

Lemma ldiff_of_contained (attributes mask : Z) :
  Z.land attributes mask = mask -> Z.ldiff mask attributes = 0.
Proof.
  intros Contained.
  rewrite Z.ldiff_land, <- Contained, (Z.land_comm attributes mask),
    <- Z.land_assoc, Z.land_lnot_diag.
  apply Z.land_0_r.
Qed.

(** X15: what one pass of the loop of [isSupported] does to a 32-bit
    attribute word for an arbitrary non-negative mask.  A mask whose bits
    are all set in the word is cleared from it, bit for bit; a mask that
    shares no bit with the word leaves it unchanged; and the result is
    always a 32-bit word again. *)
Theorem strip_clears_a_contained_mask (attributes mask : Z) :
  0 <= attributes < 2 ^ 32 ->
  0 <= mask ->
  (Z.land attributes mask = mask ->
   strip attributes mask = Z.ldiff attributes mask) /\
  (Z.land attributes mask = 0 -> strip attributes mask = attributes) /\
  0 <= strip attributes mask < 2 ^ 32.
Proof.
  intros Word Mask. unfold strip, test, uint32. repeat split.
  - intros Contained. rewrite Contained.
    destruct (Z.eqb_spec mask 0) as [->|NonZero]; cbn.
    + symmetry. apply Z.ldiff_0_r.
    + pose proof (Z.sub_nocarry_ldiff _ _ (ldiff_of_contained _ _ Contained)) as Sub.
      assert (0 <= Z.ldiff attributes mask) by (apply Z.ldiff_nonneg; lia).
      rewrite Z.mod_small; lia.
  - intros Disjoint. rewrite Disjoint. reflexivity.
  - destruct (Z.land attributes mask =? 0); cbn; [lia|].
    apply Z.mod_pos_bound. lia.
  - destruct (Z.land attributes mask =? 0); cbn; [lia|].
    apply Z.mod_pos_bound. lia.
Qed.

End StripProperties.

(** ** Validation and dispatch together *)

Section SupportedProperties.
Context {enum : Attributes} {types : Types} {library : Collaborators}.

Lemma supported_attributes_pass_no_test (attributes mask : Z) :
  NNDataSetDescriptor.isSupported attributes = true -> test attributes mask = false.
Proof.
  rewrite isSupported_eqb. intros Zero. apply Z.eqb_eq in Zero. subst attributes.
  unfold test. now rewrite Z.land_0_l.
Qed.

(** X16: an attribute word that [isSupported] accepts reaches the plain
    dense kernels only.  On a dataset carrying such a word every error and
    output-delta member other than the data-scaled ones launches one kernel
    on the dense data buffer, with a null weight pointer and without index,
    sparse buffers or flag; the two data-scaled members launch nothing and
    terminate the process. *)
Theorem supported_attributes_reach_dense_kernels_only
    (d : Dispatcher) (c : Call) (this : NNDataSet) :
  NNDataSetDescriptor.isSupported (_attributes this) = true ->
  (data_scaled d = true -> trace d c this = fatal) /\
  (data_scaled d = false ->
   exists k args,
     trace d c this = [launch k args] /\
     uses pbData args = true /\
     filter is_weight_arg args = [NULL] /\
     filter is_flag args = [] /\
     Forall (fun b => uses b args = false)
       [pbIndex; pbDataWeight; pbSparseStart; pbSparseEnd; pbSparseIndex;
        pbSparseData]).
Proof.
  intros Supported.
  pose proof (fun mask => supported_attributes_pass_no_test _ mask Supported) as No.
  split; intros Kind; destruct d; try discriminate Kind;
    unfold trace, CalculateL1Error, CalculateL2Error, CalculateL2HingeError,
      CalculateCrossEntropyError, CalculateScaledMarginalCrossEntropyError,
      CalculateMultinomialCrossEntropyError,
      CalculateMultinomialScaledMarginalCrossEntropyError,
      CalculateDataScaledMarginalCrossEntropyError, CalculateHingeError,
      CalculateL1OutputDelta, CalculateCrossEntropyOutputDelta,
      CalculateScaledMarginalCrossEntropyOutputDelta, CalculateOutputDelta,
      CalculateL2HingeOutputDelta,
      CalculateDataScaledMarginalCrossEntropyOutputDelta,
      CalculateHingeOutputDelta, bind, kernel, ret, emit, exit_;
    rewrite ?No; cbn; try reflexivity;
    do 2 eexists; (split; [reflexivity|]); repeat constructor.
Qed.

End SupportedProperties.

(** * Further concrete runs *)

Section FurtherSampleRuns.
#[local] Existing Instance NNEnum_h.
#[local] Existing Instance sample_types.
#[local] Existing Instance sample_collaborators.

(** The L2 error on the dense indexed sample, with and without [Boolean]
    and [SparseIgnoreZero]. *)
Lemma dense_members_consult_Indexed_and_Weighted_witness :
  trace L2Error sample_call
      (set_attributes (Z.lor Boolean (Z.lor SparseIgnoreZero Indexed)) (sample Indexed))
    = trace L2Error sample_call (sample Indexed).
Proof.
  exact (proj1 (dense_members_consult_Indexed_and_Weighted (types := sample_types)
                  L2Error sample_call
                  (Z.lor Boolean (Z.lor SparseIgnoreZero Indexed)) (sample Indexed)
                  eq_refl eq_refl eq_refl eq_refl eq_refl)).
Defined.



(** The L2 error on the sparse boolean sample. *)
Lemma Boolean_values_are_not_read_witness :
  Forall (fun ka => uses pbSparseData (snd ka) = false)
    (launches (trace L2Error sample_call (sample (Z.lor Sparse Boolean)))).
Proof.
  refine (proj1 (Boolean_values_are_not_read (types := sample_types)
                   L2Error sample_call 4096 1 (sample (Z.lor Sparse Boolean))
                   eq_refl _)).
  discriminate.
Defined.


(** The five members on the sparse sample, made boolean and given other
    values. *)
Lemma cross_entropy_and_L1_delta_ignore_values_witness :
  Forall
    (fun d =>
       trace d sample_call
         (set_attributes (Z.lor Sparse Boolean) (set_pbSparseData [8; 8; 8] (sample Sparse)))
       = trace d sample_call (sample Sparse))
    [CrossEntropyError; ScaledMarginalCrossEntropyError; L1OutputDelta;
     CrossEntropyOutputDelta; ScaledMarginalCrossEntropyOutputDelta].
Proof.
  exact (cross_entropy_and_L1_delta_ignore_values (types := sample_types)
           sample_call (Z.lor Sparse Boolean) [8; 8; 8] (sample Sparse)
           eq_refl eq_refl eq_refl eq_refl).
Defined.

(** The multinomial errors on the sparse sample, with and without
    [SparseIgnoreZero]. *)
Lemma multinomial_errors_ignore_SparseIgnoreZero_witness :
  Forall
    (fun d =>
       trace d sample_call (set_attributes (Z.lor Sparse SparseIgnoreZero) (sample Sparse))
         = trace d sample_call (sample Sparse) /\
       exists k args,
         trace d sample_call (sample Sparse) = [launch k args] /\
         filter is_flag args = [])
    [MultinomialCrossEntropyError; MultinomialScaledMarginalCrossEntropyError].
Proof.
  exact (multinomial_errors_ignore_SparseIgnoreZero (types := sample_types)
           sample_call (Z.lor Sparse SparseIgnoreZero) (sample Sparse)
           eq_refl eq_refl eq_refl eq_refl).
Defined.




(** Transposition of the sparse boolean sample, then the weight gradient. *)
Lemma weight_gradient_reads_what_transposition_fills_witness :
  entry (fst (CalculateSparseTransposedWeightGradient 1 0 3 2 8192 12288 rebuilt_sample))
    = kCalculateSparseTransposedWeightGradient.
Proof.
  exact (proj1 (proj2
           (weight_gradient_reads_what_transposition_fills (types := sample_types)
              0 2 3 2 0 8192 12288 1 0
              (sample (Z.lor Sparse Boolean)) rebuilt_sample eq_refl))).
Defined.

(** Two transpositions in a row of the sample under the stand-in
    collaborators. *)
Lemma transposition_rebuilds_once_per_batch_witness :
  exists k args,
    log (CalculateSparseTransposedDenoisedMatrix 1 2 0
           (final (CalculateSparseTransposedMatrix 0 2 0 (sample (Z.lor Sparse Boolean)))))
      = [copy pbSparseTransposedEnd (dev pbSparseTransposedStart (dev_uint [0; 2]));
         launch k args].
Proof.
  pose proof
    (transposition_rebuilds_once_per_batch (types := sample_types)
       0 1 2 0 0 (sample (Z.lor Sparse Boolean))
       (fun b p ds => conj eq_refl eq_refl)
       (fun k args ds => conj eq_refl eq_refl)) as Once.
  inversion Once as [|? ? First _]; subst.
  inversion First as [|? ? _ Second]; subst.
  inversion Second as [|? ? Again _]; subst.
  exact Again.
Defined.


(** Clearing [Indexed] from [Indexed | Weighted]. *)
Lemma strip_clears_a_contained_mask_witness :
  NNDataSetDescriptor.strip (Z.lor Indexed Weighted) Indexed = Weighted.
Proof.
  refine (proj1 (strip_clears_a_contained_mask (Z.lor Indexed Weighted) Indexed _ _) _).
  - cbn. lia.
  - cbn. lia.
  - reflexivity.
Defined.

(** The dense sample: accepted attributes, dense kernel, fatal data-scaled
    members. *)
Lemma supported_attributes_reach_dense_kernels_only_witness :
  trace DataScaledMarginalCrossEntropyError sample_call (sample 0) = fatal /\
  exists k args,
    trace L2Error sample_call (sample 0) = [launch k args] /\
    uses pbData args = true /\
    filter is_weight_arg args = [NULL] /\
    filter is_flag args = [] /\
    Forall (fun b => uses b args = false)
      [pbIndex; pbDataWeight; pbSparseStart; pbSparseEnd; pbSparseIndex;
       pbSparseData].
Proof.
  split.
  - exact (proj1 (supported_attributes_reach_dense_kernels_only (types := sample_types)
                    DataScaledMarginalCrossEntropyError sample_call (sample 0) eq_refl)
             eq_refl).
  - exact (proj2 (supported_attributes_reach_dense_kernels_only (types := sample_types)
                    L2Error sample_call (sample 0) eq_refl)
             eq_refl).
Defined.


End FurtherSampleRuns.
